(** * Banking customer support pipeline: a shallow embedding

    The development follows the Python sources module by module:

    - [Py]: the fragments of the Python runtime the code relies on
      ([str.strip], [str.lower], [str.upper], [in] on strings, the
      [06d] format, dictionaries, exceptions);
    - [db_utils]: the [support_tickets] table and its three operations;
    - [classifier_agent], [classifier_agent_wo_llm]: the two classifiers;
    - [feedback_agent], [query_agent]: the two handlers;
    - [orchestrator], [langgraph_impl]: the two pipeline entry points.

    Strings are sequences of characters with code points below 256;
    on that range whitespace, case mapping and the regular-expression
    classes are the ones of Python 3 [str].  Everything the code obtains
    from outside (the clock, the random generator, [uuid4], the remote
    classifier) is an explicit argument. *)

From Stdlib Require Import Ascii NArith ZArith Bool Lia.
From stdpp Require Import gmap strings list fin_maps.

(* ===================================================================== *)
(** * Python runtime                                                      *)
(* ===================================================================== *)

Module Py.

(** ** Characters *)

Definition ord (c : ascii) : N := N_of_ascii c.
Definition chr (n : N) : ascii := ascii_of_N n.

Definition in_range (lo hi n : N) : bool := (lo <=? n)%N && (n <=? hi)%N.

(** [str.isspace] on one character: TAB..CR, FS..US, SPACE, NEL, NBSP. *)
Definition isspace (c : ascii) : bool :=
  let n := ord c in
  in_range 9 13 n || in_range 28 32 n || (n =? 133)%N || (n =? 160)%N.

(** [\d] of the [re] module. *)
Definition isdecimal (c : ascii) : bool := in_range 48 57 (ord c).

(** [\w] of the [re] module: alphanumeric characters and the underscore. *)
Definition isword (c : ascii) : bool :=
  let n := ord c in
  in_range 48 57 n || in_range 65 90 n || in_range 97 122 n || (n =? 95)%N
  || (n =? 170)%N || (n =? 178)%N || (n =? 179)%N || (n =? 181)%N
  || (n =? 185)%N || (n =? 186)%N || in_range 188 190 n
  || in_range 192 214 n || in_range 216 246 n || in_range 248 255 n.

Definition lower_char (c : ascii) : ascii :=
  let n := ord c in
  if in_range 65 90 n || (in_range 192 222 n && negb (n =? 215)%N)
  then chr (n + 32) else c.

(** [str.upper] on one character.  The sharp s becomes two letters; the
    micro sign and the y with diaeresis have their capitals above 255 and
    are kept: no test of the code tells them from their capitals. *)
Definition upper_char (c : ascii) : string :=
  let n := ord c in
  if in_range 97 122 n || (in_range 224 254 n && negb (n =? 247)%N)
  then String (chr (n - 32)) EmptyString
  else if (n =? 223)%N then "SS"
  else String c EmptyString.

(** ** Strings *)

Fixpoint lower (s : string) : string :=
  match s with
  | EmptyString => EmptyString
  | String c s' => String (lower_char c) (lower s')
  end.

Fixpoint upper (s : string) : string :=
  match s with
  | EmptyString => EmptyString
  | String c s' => upper_char c +:+ upper s'
  end.

Fixpoint lstrip (s : string) : string :=
  match s with
  | EmptyString => EmptyString
  | String c s' => if isspace c then lstrip s' else s
  end.

Fixpoint rstrip (s : string) : string :=
  match s with
  | EmptyString => EmptyString
  | String c s' =>
      match rstrip s' with
      | EmptyString => if isspace c then EmptyString else String c EmptyString
      | r => String c r
      end
  end.

Definition strip (s : string) : string := rstrip (lstrip s).

(** Truth value of a string: [if s:] holds when [s] is not empty. *)
Definition truthy (s : string) : bool :=
  match s with EmptyString => false | String _ _ => true end.

Fixpoint startswith (p s : string) : bool :=
  match p, s with
  | EmptyString, _ => true
  | String _ _, EmptyString => false
  | String a p', String b s' => Ascii.eqb a b && startswith p' s'
  end.

(** [sub in s] on strings. *)
Fixpoint str_in (sub s : string) : bool :=
  startswith sub s
  || match s with
     | EmptyString => false
     | String _ s' => str_in sub s'
     end.

(** [x in (a, b, ...)] on a tuple or list of strings. *)
Definition elem_in (x : string) (l : list string) : bool :=
  existsb (String.eqb x) l.

Fixpoint str_filter (p : ascii -> bool) (s : string) : string :=
  match s with
  | EmptyString => EmptyString
  | String c s' => if p c then String c (str_filter p s') else str_filter p s'
  end.

Fixpoint str_forall (p : ascii -> bool) (s : string) : bool :=
  match s with
  | EmptyString => true
  | String c s' => p c && str_forall p s'
  end.

(** ** Formatting integers *)

Definition digit_char (d : N) : ascii := chr (48 + d).

Fixpoint decimal_go (fuel : nat) (n : N) (acc : string) : string :=
  let acc' := String (digit_char (n mod 10)) acc in
  match fuel with
  | O => acc'
  | S fuel' => if (n / 10 =? 0)%N then acc' else decimal_go fuel' (n / 10) acc'
  end.

(** [str(n)] for a natural number; a number has no more decimal digits
    than binary ones, which bounds the recursion. *)
Definition decimal (n : N) : string := decimal_go (N.size_nat n) n EmptyString.

Fixpoint zeros (k : nat) : string :=
  match k with
  | O => EmptyString
  | S k' => String "0"%char (zeros k')
  end.

Definition zfill (width : nat) (s : string) : string :=
  zeros (width - String.length s) +:+ s.

(** [f"{n:06d}"]: the sign, then the digits padded with zeros so that the
    whole has at least six characters. *)
Definition format_06d (n : Z) : string :=
  if (n <? 0)%Z then String "-"%char (zfill 5 (decimal (Z.to_N (- n))))
  else zfill 6 (decimal (Z.to_N n)).

(** ** Values, dictionaries, outcomes *)

Inductive value : Type :=
| VNone
| VStr (s : string)
| VBool (b : bool).

Definition of_optional (o : option string) : value :=
  match o with
  | Some s => VStr s
  | None => VNone
  end.

Abbreviation dict := (gmap string value).

(** [dict.update]: the right operand wins. *)
Definition dict_update (d upd : dict) : dict := upd ∪ d.

Inductive exn : Type :=
| IntegrityError          (* sqlite3: UNIQUE constraint failed *)
| KeyError (key : string)
| TypeError.

(** What a call does: it returns, raises, or is still running when the
    fuel given to an unbounded loop is used up. *)
Inductive outcome (A : Type) : Type :=
| Returns (a : A)
| Raises (e : exn)
| OutOfFuel.
Arguments Returns {A} a.
Arguments Raises {A} e.
Arguments OutOfFuel {A}.

#[global] Instance outcome_ret : MRet outcome := fun A a => Returns a.

#[global] Instance outcome_bind : MBind outcome := fun A B k m =>
  match m with
  | Returns a => k a
  | Raises e => Raises e
  | OutOfFuel => OutOfFuel
  end.

(** [d[k]] *)
Definition getitem (d : dict) (k : string) : outcome value :=
  match d !! k with
  | Some v => Returns v
  | None => Raises (KeyError k)
  end.

(** [d[k]] used as a string. *)
Definition getstr (d : dict) (k : string) : outcome string :=
  v ← getitem d k;
  match v with
  | VStr s => Returns s
  | _ => Raises TypeError
  end.

(** [d.get(k)] used as an optional string. *)
Definition get_optional (d : dict) (k : string) : option string :=
  match d !! k with
  | Some (VStr s) => Some s
  | _ => None
  end.

End Py.

Import Py.

(* ===================================================================== *)
(** * agents/classifier_agent.py                                          *)
(* ===================================================================== *)

Module classifier_agent.

Definition POSITIVE_FEEDBACK : string := "POSITIVE_FEEDBACK".
Definition NEGATIVE_FEEDBACK : string := "NEGATIVE_FEEDBACK".
Definition QUERY : string := "QUERY".

Definition _contains_any (text : string) (keywords : list string) : bool :=
  let text_lower := lower text in
  existsb (fun k => str_in k text_lower) keywords.

Definition question_words : list string :=
  ["how"; "when"; "what"; "where"; "why"; "status"; "ticket"; "help";
   "can you"; "could you"].

Definition negative_words : list string :=
  ["not happy"; "unhappy"; "angry"; "bad"; "worst"; "terrible"; "horrible";
   "complain"; "complaint"; "issue"; "problem"; "frustrated"; "disappointed";
   "did not work"; "didn't work"; "didnt work"; "money deducted";
   "debited but"].

Definition positive_words : list string :=
  ["thank you"; "thanks"; "great"; "awesome"; "good service"; "well done";
   "happy"; "satisfied"; "love the service"].

Definition heuristic_classify (message : string) : string :=
  let msg := strip message in
  if str_in "?" msg || _contains_any msg question_words then "QUERY"
  else if _contains_any msg negative_words then "NEGATIVE_FEEDBACK"
  else if _contains_any msg positive_words then "POSITIVE_FEEDBACK"
  else "QUERY".

(** ** The remote classifier *)

(** One call of [openai.ChatCompletion.create] and the extraction that
    follows it: an exception anywhere inside the [try], or the text found
    at [resp["choices"][0]["message"]["content"]] ([None] when the
    response is empty or has no choice). *)
Inductive attempt : Type :=
| AttemptRaised
| AttemptResponse (content : option string).

Record llm : Type := {
  openai_importable : bool;
  OPENAI_API_KEY : option string;
  chat_completion : string -> nat -> attempt
}.

Fixpoint attempts (e : llm) (message : string) (attempt_no remaining : nat)
  : option string :=
  match remaining with
  | O => None
  | S remaining' =>
      match chat_completion e message attempt_no with
      | AttemptRaised => attempts e message (S attempt_no) remaining'
      | AttemptResponse r =>
          let content := match r with
                         | Some s => strip s
                         | None => EmptyString
                         end in
          if truthy content then Some content
          else attempts e message (S attempt_no) remaining'
      end
  end.

Definition _call_openai_chat (e : llm) (message : string) : option string :=
  if negb (openai_importable e) then None
  else match OPENAI_API_KEY e with
       | None => None
       | Some key =>
           if negb (truthy key) then None
           else let retries := 2 in attempts e message 1 retries
       end.

Definition keep_upper_or_underscore (c : ascii) : bool :=
  in_range 65 90 (ord c) || (ord c =? 95)%N.

Definition _normalize_label (text : string) : option string :=
  if negb (truthy text) then None
  else
    let t := upper (strip text) in
    match find (String.eqb t) ["POSITIVE_FEEDBACK"; "NEGATIVE_FEEDBACK"; "QUERY"] with
    | Some lbl => Some lbl
    | None =>
        let t_clean := str_filter keep_upper_or_underscore t in
        if elem_in t_clean ["POSITIVEFEEDBACK"; "POSITIVE_FEEDBACK"; "POSITIVE"; "THANKS"]
        then Some "POSITIVE_FEEDBACK"
        else if elem_in t_clean ["NEGATIVEFEEDBACK"; "NEGATIVE_FEEDBACK"; "NEGATIVE";
                                 "COMPLAINT"; "COMPLAIN"]
        then Some "NEGATIVE_FEEDBACK"
        else if elem_in t_clean ["QUERY"; "QUESTION"; "STATUS"; "TICKET"]
        then Some "QUERY"
        else
          let t_lower := lower t in
          if existsb (fun k => str_in k t_lower)
               ["thank"; "thanks"; "great"; "good"; "happy"; "satisfied"]
          then Some "POSITIVE_FEEDBACK"
          else if existsb (fun k => str_in k t_lower)
                    ["not"; "unhappy"; "angry"; "complain"; "debit"; "issue";
                     "problem"; "frustrat"]
          then Some "NEGATIVE_FEEDBACK"
          else if existsb (fun k => str_in k t_lower)
                    ["?"; "how"; "what"; "when"; "status"; "ticket"; "help"]
          then Some "QUERY"
          else None
    end.

Definition classify_message (e : llm) (message : string) (use_llm : bool) : string :=
  let message := strip message in
  if negb (truthy message) then "QUERY"
  else if negb use_llm then heuristic_classify message
  else
    let fallback := heuristic_classify message in
    match _call_openai_chat e message with
    | Some raw =>
        if truthy raw then
          match _normalize_label raw with
          | Some label => if truthy label then label else fallback
          | None => fallback
          end
        else fallback
    | None => fallback
    end.

End classifier_agent.

(* ===================================================================== *)
(** * agents/classifier_agent_wo_llm.py                                   *)
(* ===================================================================== *)

Module classifier_agent_wo_llm.

Definition POSITIVE_FEEDBACK : string := "POSITIVE_FEEDBACK".
Definition NEGATIVE_FEEDBACK : string := "NEGATIVE_FEEDBACK".
Definition QUERY : string := "QUERY".

Definition _contains_any (text : string) (keywords : list string) : bool :=
  let text_lower := lower text in
  existsb (fun k => str_in k text_lower) keywords.

Definition classify_message (message : string) : string :=
  let msg := strip message in
  let question_words :=
    ["how"; "when"; "what"; "where"; "why"; "status"; "ticket"; "help";
     "can you"; "could you"] in
  if str_in "?" msg || _contains_any msg question_words then QUERY
  else
    let negative_words :=
      ["not happy"; "unhappy"; "angry"; "bad"; "worst"; "terrible"; "horrible";
       "complain"; "complaint"; "issue"; "problem"; "frustrated"; "disappointed";
       "did not work"; "didn't work"; "didnt work"; "money deducted";
       "debited but"] in
    if _contains_any msg negative_words then NEGATIVE_FEEDBACK
    else
      let positive_words :=
        ["thank you"; "thanks"; "great"; "awesome"; "good service"; "well done";
         "happy"; "satisfied"; "love the service"] in
      if _contains_any msg positive_words then POSITIVE_FEEDBACK
      else QUERY.

End classifier_agent_wo_llm.


(* ===================================================================== *)
(** * db/db_utils.py                                                      *)
(* ===================================================================== *)

Module db_utils.

(** Modelled from the spec: [db/schema.sql], which [init_db] executes, is
    not among the sources.  The table is the one of the spec's persisted
    schema: the seven columns below, [ticket_id] being the primary key,
    [customer_name] and [correlation_id] the two nullable columns. *)
Record row : Type := {
  ticket_id : string;
  customer_name : option string;
  message : string;
  status : string;
  created_at : string;
  updated_at : string;
  correlation_id : option string
}.

(** The rows of [support_tickets], oldest first. *)
Abbreviation table := (list row).

(** [WHERE ticket_id = ?] *)
Definition has_id (id : string) (r : row) : bool := String.eqb (ticket_id r) id.

(** [now] is what [datetime.utcnow().isoformat()] yields in this call.  The
    insertion is refused when the key is taken; the connection, used as a
    context manager, then rolls back and lets the exception through. *)
Definition create_ticket (now : string) (tbl : table)
    (ticket_id message : string) (customer_name correlation_id : option string)
  : outcome unit * table :=
  if existsb (has_id ticket_id) tbl then (Raises IntegrityError, tbl)
  else
    (Returns tt,
     tbl ++ [ {| ticket_id := ticket_id;
                 customer_name := customer_name;
                 message := message;
                 status := "Open";
                 created_at := now;
                 updated_at := now;
                 correlation_id := correlation_id |} ]).

(** [dict(row)] for a row of the six selected columns. *)
Definition selected_columns (r : row) : dict :=
  <["ticket_id" := VStr (ticket_id r)]>
  (<["customer_name" := of_optional (customer_name r)]>
  (<["message" := VStr (message r)]>
  (<["status" := VStr (status r)]>
  (<["created_at" := VStr (created_at r)]>
  (<["updated_at" := VStr (updated_at r)]> ∅))))).

Definition get_ticket (tbl : table) (ticket_id : string) : option dict :=
  match find (has_id ticket_id) tbl with
  | None => None
  | Some r => Some (selected_columns r)
  end.

Definition set_status (new_status now : string) (r : row) : row :=
  {| ticket_id := ticket_id r;
     customer_name := customer_name r;
     message := message r;
     status := new_status;
     created_at := created_at r;
     updated_at := now;
     correlation_id := correlation_id r |}.

Definition update_ticket_status (now : string) (tbl : table)
    (ticket_id new_status : string) : outcome unit * table :=
  (Returns tt,
   map (fun r => if has_id ticket_id r then set_status new_status now r else r) tbl).

End db_utils.

(* ===================================================================== *)
(** * agents/feedback_agent.py                                            *)
(* ===================================================================== *)

Module feedback_agent.

Import db_utils.

(** The [while True] loop; [randint i] is what the [i]-th call of
    [random.randint(0, 999999)] yields, [draw] counts the calls made. *)
Fixpoint _generate_unique_ticket_id (fuel : nat) (randint : nat -> Z)
    (draw : nat) (tbl : table) : outcome string :=
  match fuel with
  | O => OutOfFuel
  | S fuel' =>
      let ticket_id := format_06d (randint draw) in
      match get_ticket tbl ticket_id with
      | None => Returns ticket_id
      | Some _ => _generate_unique_ticket_id fuel' randint (S draw) tbl
      end
  end.

(** [customer_name or "Valued Customer"] *)
Definition customer_display (customer_name : option string) : string :=
  match customer_name with
  | Some n => if truthy n then n else "Valued Customer"
  | None => "Valued Customer"
  end.

Definition thanks_reply (customer_name : option string) : string :=
  "Thank you for your kind feedback, " +:+ customer_display customer_name +:+ "! "
  +:+ "We really appreciate you taking the time to share this with us.".

Definition apology_reply (customer_name : option string) (ticket_id : string) : string :=
  "We're really sorry to hear about your experience, "
  +:+ customer_display customer_name +:+ ". "
  +:+ "I've created a support ticket for you: #" +:+ ticket_id +:+ ". "
  +:+ "Our team will review this and get back to you as soon as possible.".

Definition result (reply : string) (ticket_id : option string) (sentiment : string) : dict :=
  <["reply" := VStr reply]>
  (<["ticket_id" := of_optional ticket_id]>
  (<["sentiment" := VStr sentiment]> ∅)).

Definition handle_feedback (fuel : nat) (randint : nat -> Z) (now : string)
    (tbl : table) (message sentiment : string)
    (customer_name correlation_id : option string) : outcome dict * table :=
  if String.eqb sentiment classifier_agent.POSITIVE_FEEDBACK then
    (Returns (result (thanks_reply customer_name) None sentiment), tbl)
  else if String.eqb sentiment classifier_agent.NEGATIVE_FEEDBACK then
    match _generate_unique_ticket_id fuel randint 0 tbl with
    | Returns ticket_id =>
        match create_ticket now tbl ticket_id message customer_name correlation_id with
        | (Returns _, tbl') =>
            (Returns (result (apology_reply customer_name ticket_id)
                        (Some ticket_id) sentiment), tbl')
        | (Raises e, tbl') => (Raises e, tbl')
        | (OutOfFuel, tbl') => (OutOfFuel, tbl')
        end
    | Raises e => (Raises e, tbl)
    | OutOfFuel => (OutOfFuel, tbl)
    end
  else
    (Returns (result "Thank you for your message." None sentiment), tbl).

End feedback_agent.

(* ===================================================================== *)
(** * agents/query_agent.py                                               *)
(* ===================================================================== *)

Module query_agent.

Import db_utils.

Definition head (s : string) : option ascii :=
  match s with
  | EmptyString => None
  | String c _ => Some c
  end.

Definition is_word_at (c : option ascii) : bool :=
  match c with
  | Some a => isword a
  | None => false
  end.

(** [\b] between two positions: exactly one side is a word character; the
    outside of the string counts as a non-word character. *)
Definition word_boundary (prev next : option ascii) : bool :=
  xorb (is_word_at prev) (is_word_at next).

(** [\d{k}] at the start of [s]: the digits, their last character, and what
    follows them. *)
Fixpoint digits (k : nat) (prev : option ascii) (s : string)
  : option (string * option ascii * string) :=
  match k with
  | O => Some (EmptyString, prev, s)
  | S k' =>
      match s with
      | EmptyString => None
      | String c s' =>
          if isdecimal c then
            match digits k' (Some c) s' with
            | Some (d, last, rest) => Some (String c d, last, rest)
            | None => None
            end
          else None
      end
  end.

(** [\b(\d{6})\b] at the start of [s], [prev] being the character before. *)
Definition match_here (prev : option ascii) (s : string) : option string :=
  if word_boundary prev (head s) then
    match digits 6 prev s with
    | Some (group1, last, rest) =>
        if word_boundary last (head rest) then Some group1 else None
    | None => None
    end
  else None.

(** [TICKET_PATTERN.search]: the match at the leftmost position that has one. *)
Fixpoint search_from (prev : option ascii) (s : string) : option string :=
  match match_here prev s with
  | Some group1 => Some group1
  | None =>
      match s with
      | EmptyString => None
      | String c s' => search_from (Some c) s'
      end
  end.

Definition TICKET_PATTERN_search (message : string) : option string :=
  search_from None message.

Definition _extract_ticket_id (message : string) : option string :=
  match TICKET_PATTERN_search message with
  | Some group1 => Some group1
  | None => None
  end.

Definition result (reply : string) (ticket_id : option string) (found : bool) : dict :=
  <["reply" := VStr reply]>
  (<["ticket_id" := of_optional ticket_id]>
  (<["found" := VBool found]> ∅)).

Definition no_id_reply : string :=
  "I couldn't find a ticket number in your message. "
  +:+ "Please share your 6-digit ticket ID so I can check the status for you.".

Definition not_found_reply (ticket_id : string) : string :=
  "I couldn't find any ticket with ID #" +:+ ticket_id +:+ ". "
  +:+ "Please verify the number and try again.".

Definition status_reply (ticket_id status : string) : string :=
  "Your ticket #" +:+ ticket_id +:+ " is currently marked as: " +:+ status +:+ ".".

(** [if not ticket_id]: no match, or an empty one. *)
Definition usable (ticket_id : option string) : option string :=
  match ticket_id with
  | Some t => if truthy t then Some t else None
  | None => None
  end.

Definition handle_query (tbl : table) (message : string) : outcome dict :=
  match usable (_extract_ticket_id message) with
  | None => Returns (result no_id_reply None false)
  | Some ticket_id =>
      match get_ticket tbl ticket_id with
      | None => Returns (result (not_found_reply ticket_id) (Some ticket_id) false)
      | Some ticket =>
          status ← getstr ticket "status";
          Returns (result (status_reply ticket_id status) (Some ticket_id) true)
      end
  end.

End query_agent.

(* ===================================================================== *)
(** * What a request obtains from outside                                 *)
(* ===================================================================== *)

(** [remote] is the remote classifier, [uuid4] the text of the identifier
    drawn at entry, [randint i] the [i]-th value of
    [random.randint(0, 999999)] and [utcnow i] the [i]-th reading of
    [datetime.utcnow().isoformat()] during the request. *)
Record environment : Type := {
  remote : classifier_agent.llm;
  uuid4 : string;
  randint : nat -> Z;
  utcnow : nat -> string
}.

(* ===================================================================== *)
(** * orchestrator.py                                                     *)
(* ===================================================================== *)

Module orchestrator.

Import db_utils.

Definition result (message classification handled_by reply : string)
    (ticket_id : value) : dict :=
  <["original_message" := VStr message]>
  (<["classification" := VStr classification]>
  (<["handled_by" := VStr handled_by]>
  (<["reply" := VStr reply]>
  (<["ticket_id" := ticket_id]> ∅)))).

Definition process_customer_message (env : environment) (fuel : nat)
    (tbl : table) (message : string) (customer_name : option string)
  : outcome dict * table :=
  let classification := classifier_agent.classify_message (remote env) message true in
  if elem_in classification
       [classifier_agent.POSITIVE_FEEDBACK; classifier_agent.NEGATIVE_FEEDBACK]
  then
    match feedback_agent.handle_feedback fuel (randint env) (utcnow env 0) tbl
            message classification customer_name None with
    | (Returns result_, tbl') =>
        (reply ← getstr result_ "reply";
         ticket_id ← getitem result_ "ticket_id";
         Returns (result message classification "FeedbackAgent" reply ticket_id),
         tbl')
    | (Raises e, tbl') => (Raises e, tbl')
    | (OutOfFuel, tbl') => (OutOfFuel, tbl')
    end
  else if String.eqb classification classifier_agent.QUERY then
    (result_ ← query_agent.handle_query tbl message;
     reply ← getstr result_ "reply";
     ticket_id ← getitem result_ "ticket_id";
     Returns (result message classification "QueryAgent" reply ticket_id),
     tbl)
  else
    (Returns (result message classification "Unknown"
                "I'm not sure how to handle this message." VNone),
     tbl).

End orchestrator.

(* ===================================================================== *)
(** * langgraph_impl.py                                                   *)
(* ===================================================================== *)

Module langgraph_impl.

Import db_utils.

(** The graph state is a dictionary over the keys of [SupportState]; a node
    returns the entries it sets and the graph merges them into the state. *)

Definition node_classifier (env : environment) (state : dict) : outcome dict :=
  _ ← getitem state "correlation_id";
  message ← getstr state "message";
  let cls := classifier_agent.classify_message (remote env) message true in
  Returns (<["classification" := VStr cls]> ∅).

Definition node_update (reply : string) (ticket_id : value)
    (handled_by processed_at : string) : dict :=
  <["reply" := VStr reply]>
  (<["ticket_id" := ticket_id]>
  (<["handled_by" := VStr handled_by]>
  (<["processed_at" := VStr processed_at]> ∅))).

(** [create_ticket] reads the clock first, the node reads it afterwards. *)
Definition node_feedback (env : environment) (fuel : nat) (tbl : table)
    (state : dict) : outcome dict * table :=
  match
    (_ ← getitem state "correlation_id";
     message ← getstr state "message";
     sentiment ← getstr state "classification";
     correlation_id ← getstr state "correlation_id";
     Returns (message, sentiment, correlation_id))
  with
  | Returns (message, sentiment, correlation_id) =>
      match feedback_agent.handle_feedback fuel (randint env) (utcnow env 0) tbl
              message sentiment (get_optional state "customer_name")
              (Some correlation_id) with
      | (Returns result, tbl') =>
          let processed_at :=
            if String.eqb sentiment classifier_agent.NEGATIVE_FEEDBACK
            then utcnow env 1 else utcnow env 0 in
          (reply ← getstr result "reply";
           ticket_id ← getitem result "ticket_id";
           Returns (node_update reply ticket_id "FeedbackAgent" processed_at),
           tbl')
      | (Raises e, tbl') => (Raises e, tbl')
      | (OutOfFuel, tbl') => (OutOfFuel, tbl')
      end
  | Raises e => (Raises e, tbl)
  | OutOfFuel => (OutOfFuel, tbl)
  end.

Definition node_query (env : environment) (tbl : table) (state : dict)
  : outcome dict :=
  message ← getstr state "message";
  correlation_id ← getstr state "correlation_id";
  result ← query_agent.handle_query tbl message;
  reply ← getstr result "reply";
  ticket_id ← getitem result "ticket_id";
  Returns (node_update reply ticket_id "QueryAgent" (utcnow env 0)).

Definition route_after_classification (state : dict) : outcome string :=
  cls ← getstr state "classification";
  _ ← getitem state "correlation_id";
  if elem_in cls [classifier_agent.POSITIVE_FEEDBACK; classifier_agent.NEGATIVE_FEEDBACK]
  then Returns "feedback"
  else Returns "query".

(** [GRAPH.invoke]: START, the classifier node, the conditional edge, the
    node it names, END. *)
Definition invoke (env : environment) (fuel : nat) (tbl : table)
    (initial_state : dict) : outcome dict * table :=
  match node_classifier env initial_state with
  | Returns update1 =>
      let state1 := dict_update initial_state update1 in
      match route_after_classification state1 with
      | Returns next =>
          if String.eqb next "feedback" then
            match node_feedback env fuel tbl state1 with
            | (Returns update2, tbl') => (Returns (dict_update state1 update2), tbl')
            | (Raises e, tbl') => (Raises e, tbl')
            | (OutOfFuel, tbl') => (OutOfFuel, tbl')
            end
          else
            (update2 ← node_query env tbl state1;
             Returns (dict_update state1 update2),
             tbl)
      | Raises e => (Raises e, tbl)
      | OutOfFuel => (OutOfFuel, tbl)
      end
  | Raises e => (Raises e, tbl)
  | OutOfFuel => (OutOfFuel, tbl)
  end.

Definition run_support_graph (env : environment) (fuel : nat) (tbl : table)
    (message : string) (customer_name : option string) : outcome dict * table :=
  let correlation_id := "cs-" +:+ uuid4 env in
  let initial_state : dict :=
    <["message" := VStr message]>
    (<["customer_name" := of_optional customer_name]>
    (<["correlation_id" := VStr correlation_id]> ∅)) in
  invoke env fuel tbl initial_state.

End langgraph_impl.

(* ===================================================================== *)
(** * Vocabulary of the statements                                        *)
(* ===================================================================== *)

(** One of the three classification labels. *)
Definition is_label (s : string) : Prop :=
  s = classifier_agent.POSITIVE_FEEDBACK
  ∨ s = classifier_agent.NEGATIVE_FEEDBACK
  ∨ s = classifier_agent.QUERY.

(** A call signals a failure to its caller when it raises. *)
Definition signals_failure {A} (o : outcome A) : Prop := ∃ e, o = Raises e.

(** The primary keys held by the table, in row order. *)
Definition ids (tbl : db_utils.table) : list string := map db_utils.ticket_id tbl.

(** [^\d{6}$] *)
Definition six_digits (id : string) : Prop :=
  String.length id = 6 ∧ str_forall isdecimal id = true.

(** The number a string of decimal digits denotes, as [int] reads it. *)
Definition digit_value (c : ascii) : N := ord c - 48.

Fixpoint str_value_from (acc : N) (s : string) : N :=
  match s with
  | EmptyString => acc
  | String c s' => str_value_from (10 * acc + digit_value c) s'
  end.

Definition str_value (s : string) : N := str_value_from 0 s.

(** [reply] contains [id] as a contiguous part. *)
Definition embeds (id reply : string) : Prop :=
  ∃ before after, reply = before +:+ id +:+ after.

(** The columns [get_ticket] selects. *)
Definition ticket_fields : gset string :=
  {[ "ticket_id"; "customer_name"; "message"; "status"; "created_at"; "updated_at" ]}.

(** The tables a store instance can hold: it starts empty, and changes
    through [create_ticket], [update_ticket_status] and the feedback
    handler only. *)
Inductive reachable : db_utils.table → Prop :=
| reachable_init : reachable []
| reachable_create now tbl ticket_id message customer_name correlation_id :
    reachable tbl →
    reachable (db_utils.create_ticket now tbl ticket_id message
                 customer_name correlation_id).2
| reachable_update now tbl ticket_id new_status :
    reachable tbl →
    reachable (db_utils.update_ticket_status now tbl ticket_id new_status).2
| reachable_feedback fuel randint now tbl message sentiment customer_name correlation_id :
    reachable tbl →
    reachable (feedback_agent.handle_feedback fuel randint now tbl message
                 sentiment customer_name correlation_id).2.

(** A request served with the remote classifier out of reach. *)
Definition offline : environment :=
  {| remote := {| classifier_agent.openai_importable := false;
                  classifier_agent.OPENAI_API_KEY := None;
                  classifier_agent.chat_completion :=
                    fun _ _ => classifier_agent.AttemptRaised |};
     uuid4 := "6f1d2c3e-0000-4000-8000-000000000001";
     randint := fun i => if Nat.eqb i 0 then 42%Z else 7%Z;
     utcnow := fun i => if Nat.eqb i 0 then "2026-11-04T09:00:00"
                        else "2026-11-04T09:00:01" |}.

(** The state the graph starts from, and the state after the classifier
    node. *)
Definition initial (m cn cid : value) : dict :=
  <["message" := m]> (<["customer_name" := cn]> (<["correlation_id" := cid]> ∅)).

Definition classified (m cn cid cls : value) : dict :=
  dict_update (initial m cn cid) (<["classification" := cls]> ∅).

(** The fields of the record [process_customer_message] returns. *)
Definition orchestrator_fields : gset string :=
  {[ "original_message"; "classification"; "handled_by"; "reply"; "ticket_id" ]}.

(** The last character of [s], or [prev] when [s] is empty. *)
Fixpoint last_from (prev : option ascii) (s : string) : option ascii :=
  match s with
  | EmptyString => prev
  | String c s' => last_from (Some c) s'
  end.

(** [d] is a run of six decimal digits with a word boundary on either
    side, [before] being the text to its left (after the character
    [prev]) and [after] the text to its right. *)
Definition run_between (prev : option ascii) (before d after : string) : Prop :=
  six_digits d
  ∧ query_agent.word_boundary (last_from prev before) (query_agent.head (d +:+ after)) = true
  ∧ query_agent.word_boundary (last_from (last_from prev before) d) (query_agent.head after) = true.

(** [message] reads [before], then the six-digit run [d], then [after]. *)
Definition six_digit_run (message before d after : string) : Prop :=
  message = before +:+ d +:+ after ∧ run_between None before d after.

(* ===================================================================== *)
(** * tests/test_harness.py                                               *)
(* ===================================================================== *)

Module test_harness.

Import db_utils.

(** [if ticket:] on a dictionary: it holds when the dictionary is not
    empty. *)
Definition dict_truthy (d : dict) : bool := negb (bool_decide (d = ∅)).

(** One turn of the loop of [run_test_harness], the prints left out: the
    graph runs with the customer name "TestUser"; when the result carries
    a ticket id and the store holds that ticket, the verification line
    reads [ticket['ticket_id']], [ticket['status']] and
    [ticket['correlation_id']]. *)
Definition run_case (env : environment) (fuel : nat) (tbl : table)
    (message : string) : outcome unit * table :=
  match langgraph_impl.run_support_graph env fuel tbl message (Some "TestUser") with
  | (Returns result, tbl') =>
      match get_optional result "ticket_id" with
      | Some ticket_id =>
          if truthy ticket_id then
            match get_ticket tbl' ticket_id with
            | Some ticket =>
                if dict_truthy ticket then
                  (_ ← getitem ticket "ticket_id";
                   _ ← getitem ticket "status";
                   _ ← getitem ticket "correlation_id";
                   Returns tt,
                   tbl')
                else (Returns tt, tbl')
            | None => (Returns tt, tbl')
            end
          else (Returns tt, tbl')
      | None => (Returns tt, tbl')
      end
  | (Raises e, tbl') => (Raises e, tbl')
  | (OutOfFuel, tbl') => (OutOfFuel, tbl')
  end.

End test_harness.

(* ===================================================================== *)
(** * Further vocabulary                                                  *)
(* ===================================================================== *)

(** The last character of a string. *)
Definition last_char (s : string) : option ascii := last_from None s.

Definition nonspace_at (c : option ascii) : bool :=
  match c with
  | Some a => negb (isspace a)
  | None => false
  end.

(** A keyword that trimming cannot cut: it is not empty and neither
    starts nor ends with whitespace. *)
Definition trim_stable (k : string) : bool :=
  nonspace_at (query_agent.head k) && nonspace_at (last_char k).

(** An attempt that yields no text: it raised, or its content is missing
    or blank. *)
Definition failed (a : classifier_agent.attempt) : bool :=
  match a with
  | classifier_agent.AttemptRaised => true
  | classifier_agent.AttemptResponse None => true
  | classifier_agent.AttemptResponse (Some s) => negb (truthy (strip s))
  end.

(** The remote classifier cannot be asked: the package is missing, or the
    key is missing or empty. *)
Definition unconfigured (e : classifier_agent.llm) : bool :=
  negb (classifier_agent.openai_importable e)
  || match classifier_agent.OPENAI_API_KEY e with
     | Some key => negb (truthy key)
     | None => true
     end.

(** The heuristic as it would read without the trimming step. *)
Definition heuristic_untrimmed (message : string) : string :=
  if str_in "?" message
     || existsb (fun k => str_in k (lower message)) classifier_agent.question_words
  then "QUERY"
  else if existsb (fun k => str_in k (lower message)) classifier_agent.negative_words
  then "NEGATIVE_FEEDBACK"
  else if existsb (fun k => str_in k (lower message)) classifier_agent.positive_words
  then "POSITIVE_FEEDBACK"
  else "QUERY".

(** The row [create_ticket] inserts. *)
Definition new_row (now id message : string) (cn cid : option string) : db_utils.row :=
  {| db_utils.ticket_id := id; db_utils.customer_name := cn;
     db_utils.message := message; db_utils.status := "Open";
     db_utils.created_at := now; db_utils.updated_at := now;
     db_utils.correlation_id := cid |}.

(** No decimal digit occurs in [s]. *)
Definition no_digit (s : string) : bool := str_forall (fun c => negb (isdecimal c)) s.

(** The fields of a handler's answer. *)
Definition query_fields : gset string := {[ "reply"; "ticket_id"; "found" ]}.

(* ===================================================================== *)
(** * Properties of the runtime fragment                                  *)
(* ===================================================================== *)

Section Strings.

Lemma lstrip_shape s :
  lstrip s = EmptyString ∨ ∃ c t, lstrip s = String c t ∧ isspace c = false.
Proof.
  induction s as [|c s IH]; simpl; [by left|].
  destruct (isspace c) eqn:E; [exact IH|].
  right. by exists c, s.
Qed.

Lemma rstrip_cons_nonspace c t :
  isspace c = false → rstrip (String c t) = String c (rstrip t).
Proof. intros E. simpl. rewrite E. by destruct (rstrip t). Qed.

Lemma rstrip_idem s : rstrip (rstrip s) = rstrip s.
Proof.
  induction s as [|c s IH]; simpl; [done|].
  destruct (rstrip s) as [|c' r] eqn:E.
  - destruct (isspace c) eqn:Ec; simpl; [done|]. by rewrite Ec.
  - change (rstrip (String c (String c' r))) with
      (match rstrip (String c' r) with
       | EmptyString => if isspace c then EmptyString else String c EmptyString
       | r' => String c r'
       end).
    rewrite IH. done.
Qed.

Lemma strip_idem s : strip (strip s) = strip s.
Proof.
  unfold strip.
  destruct (lstrip_shape s) as [->|(c & t & -> & E)]; [done|].
  rewrite (rstrip_cons_nonspace c t E). simpl. rewrite E.
  rewrite <- (rstrip_cons_nonspace c t E). apply rstrip_idem.
Qed.

Lemma rstrip_empty s : rstrip s = EmptyString ↔ str_forall isspace s = true.
Proof.
  induction s as [|c s IH]; simpl; [done|].
  destruct (rstrip s) eqn:E.
  - destruct (isspace c); simpl; [tauto|]. split; discriminate.
  - split; [discriminate|]. intros [_ H]%andb_prop. apply IH in H. discriminate.
Qed.

Lemma lstrip_forall s : str_forall isspace (lstrip s) = str_forall isspace s.
Proof.
  induction s as [|c s IH]; simpl; [done|].
  destruct (isspace c) eqn:E; simpl; [done|]. by rewrite E.
Qed.

(** A message is blank exactly when stripping leaves nothing. *)
Lemma strip_empty s : strip s = EmptyString ↔ str_forall isspace s = true.
Proof. unfold strip. by rewrite rstrip_empty, lstrip_forall. Qed.

Lemma str_in_cons sub c s : str_in sub s = true → str_in sub (String c s) = true.
Proof. intros H. simpl. rewrite H. apply orb_true_r. Qed.

Lemma str_in_lstrip c s :
  isspace c = false → str_in (String c EmptyString) (lstrip s) = str_in (String c EmptyString) s.
Proof.
  intros Hc. induction s as [|a s IH]; [done|].
  simpl lstrip. destruct (isspace a) eqn:Ea; [|done].
  rewrite IH. simpl.
  destruct (Ascii.eqb_spec c a) as [->|_]; [congruence|]. done.
Qed.

Lemma str_in_rstrip c s :
  isspace c = false → str_in (String c EmptyString) (rstrip s) = str_in (String c EmptyString) s.
Proof.
  intros Hc. induction s as [|a s IH]; [done|].
  simpl rstrip. destruct (rstrip s) as [|b r] eqn:E.
  - destruct (isspace a) eqn:Ea.
    + simpl in *. rewrite <- IH.
      destruct (Ascii.eqb_spec c a) as [->|_]; [congruence|]. done.
    + simpl in *. rewrite <- IH. done.
  - simpl in *. rewrite <- IH. done.
Qed.

(** Stripping removes whitespace only: any other character stays. *)
Lemma str_in_strip c s :
  isspace c = false → str_in (String c EmptyString) (strip s) = str_in (String c EmptyString) s.
Proof. intros Hc. unfold strip. by rewrite str_in_rstrip, str_in_lstrip. Qed.

End Strings.

(* ===================================================================== *)
(** * The classifiers                                                     *)
(* ===================================================================== *)

Section Classifier.

Import classifier_agent.

Lemma heuristic_classify_label message : is_label (heuristic_classify message).
Proof.
  unfold heuristic_classify, is_label, POSITIVE_FEEDBACK, NEGATIVE_FEEDBACK, QUERY.
  repeat match goal with |- context [if ?b then _ else _] => destruct b end; auto.
Qed.

Lemma _normalize_label_label text lbl :
  _normalize_label text = Some lbl → is_label lbl.
Proof.
  unfold _normalize_label, is_label, POSITIVE_FEEDBACK, NEGATIVE_FEEDBACK, QUERY.
  destruct (negb (truthy text)); [discriminate|].
  destruct (find _ _) as [l|] eqn:Hfind.
  - intros [= <-]. apply find_some in Hfind as [Hin _].
    simpl in Hin. intuition.
  - repeat match goal with |- context [if ?b then _ else _] => destruct b end;
      intros [= <-]; auto.
Qed.

Lemma heuristic_classify_blank message :
  strip message = EmptyString → heuristic_classify message = QUERY.
Proof. unfold heuristic_classify. by intros ->. Qed.

(** The heuristic sees the stripped message only. *)
Lemma heuristic_classify_strip message :
  heuristic_classify (strip message) = heuristic_classify message.
Proof. unfold heuristic_classify. by rewrite strip_idem. Qed.

(** With the remote path switched off, [classify_message] is the heuristic,
    blank messages included. *)
Lemma classify_message_heuristic_only e message :
  classify_message e message false = heuristic_classify message.
Proof.
  unfold classify_message. destruct (strip message) eqn:E; simpl.
  - symmetry. by apply heuristic_classify_blank.
  - rewrite <- E. apply heuristic_classify_strip.
Qed.

Lemma wo_llm_is_heuristic message :
  classifier_agent_wo_llm.classify_message message = heuristic_classify message.
Proof. reflexivity. Qed.

Lemma classify_message_label e message use_llm :
  is_label (classify_message e message use_llm).
Proof.
  unfold classify_message.
  destruct (negb (truthy (strip message))); [right; right; done|].
  destruct (negb use_llm); [apply heuristic_classify_label|].
  destruct (_call_openai_chat e (strip message)) as [raw|];
    [|apply heuristic_classify_label].
  destruct (truthy raw); [|apply heuristic_classify_label].
  destruct (_normalize_label raw) as [label|] eqn:Hn;
    [|apply heuristic_classify_label].
  destruct (truthy label); [|apply heuristic_classify_label].
  eapply _normalize_label_label, Hn.
Qed.

(** C2.  Whatever the message, the remote classifier's behaviour and the
    [use_llm] flag, [classify_message] returns one of the three labels
    POSITIVE_FEEDBACK, NEGATIVE_FEEDBACK, QUERY; the function is total (a
    failing remote attempt is caught inside [_call_openai_chat]), and on
    a message that is empty or made of whitespace only it returns QUERY. *)
Theorem classify_message_total (e : llm) (message : string) (use_llm : bool) :
  is_label (classify_message e message use_llm)
  ∧ (str_forall isspace message = true → classify_message e message use_llm = QUERY).
Proof.
  split; [apply classify_message_label|].
  intros Hblank%strip_empty. unfold classify_message. by rewrite Hblank.
Qed.

Lemma classify_message_total_witness :
  classify_message
    {| openai_importable := true; OPENAI_API_KEY := Some "sk";
       chat_completion := fun _ _ => AttemptResponse (Some " positive. ") |}
    "   " true = QUERY.
Proof.
  apply classify_message_total. reflexivity.
Defined.

(** C5.  A message that contains a question mark once trimmed is classified
    QUERY by the heuristic, whatever else it contains: the question cues
    are tested before the negative and the positive ones. *)
Theorem question_mark_takes_precedence (message : string) :
  str_in "?" (strip message) = true → heuristic_classify message = QUERY.
Proof. unfold heuristic_classify. by intros ->. Qed.

Lemma question_mark_takes_precedence_witness :
  heuristic_classify "  I am angry and unhappy, thanks for nothing?  " = QUERY.
Proof.
  apply question_mark_takes_precedence. reflexivity.
Defined.

(** Trimming does not matter for the premise: the question mark is not a
    whitespace character. *)
Lemma question_mark_untrimmed message :
  str_in "?" message = true → heuristic_classify message = QUERY.
Proof.
  intros H. unfold heuristic_classify.
  by rewrite str_in_strip, H.
Qed.

(** C10.  On every message with non-whitespace content the heuristic-only
    module's [classify_message] returns what [heuristic_classify] of the
    LLM-backed module returns, and so does the LLM-backed
    [classify_message] called with [use_llm=False]. *)
Theorem classifiers_agree (e : llm) (message : string) :
  strip message ≠ EmptyString →
  classifier_agent_wo_llm.classify_message message = heuristic_classify message
  ∧ classify_message e message false = heuristic_classify message.
Proof.
  intros _. split.
  - apply wo_llm_is_heuristic.
  - apply classify_message_heuristic_only.
Qed.

Lemma classifiers_agree_witness :
  classifier_agent_wo_llm.classify_message "Thanks a lot" = heuristic_classify "Thanks a lot"
  ∧ classify_message
      {| openai_importable := false; OPENAI_API_KEY := None;
         chat_completion := fun _ _ => AttemptRaised |}
      "Thanks a lot" false = heuristic_classify "Thanks a lot".
Proof.
  apply classifiers_agree. vm_compute. discriminate.
Defined.

End Classifier.

(* ===================================================================== *)
(** * The ticket store                                                    *)
(* ===================================================================== *)

Section Store.

Import db_utils.

Lemma has_id_true id r : has_id id r = true ↔ ticket_id r = id.
Proof. unfold has_id. apply String.eqb_eq. Qed.

Lemma has_id_false id r : has_id id r = false ↔ ticket_id r ≠ id.
Proof. unfold has_id. apply String.eqb_neq. Qed.

Lemma get_ticket_None tbl id : get_ticket tbl id = None ↔ id ∉ ids tbl.
Proof.
  unfold get_ticket, ids. induction tbl as [|r tbl IH]; simpl.
  - split; [intros _; apply not_elem_of_nil|done].
  - rewrite not_elem_of_cons. destruct (has_id id r) eqn:E.
    + apply has_id_true in E. split; [discriminate|]. intros [H _]. congruence.
    + apply has_id_false in E. rewrite IH. split; [|tauto]. intros H. split; [congruence|done].
Qed.

Lemma existsb_has_id tbl id : existsb (has_id id) tbl = true ↔ id ∈ ids tbl.
Proof.
  unfold ids. induction tbl as [|r tbl IH]; simpl.
  - split; [discriminate|]. intros H. by apply not_elem_of_nil in H.
  - rewrite orb_true_iff, elem_of_cons, IH, has_id_true. split; intros [H|H]; auto.
Qed.

Lemma ids_update now tbl id new_status :
  ids (update_ticket_status now tbl id new_status).2 = ids tbl.
Proof.
  unfold ids, update_ticket_status. simpl. rewrite map_map.
  apply map_ext. intros r. by destruct (has_id id r).
Qed.

Lemma find_update now tbl id new_status id' :
  find (has_id id') (update_ticket_status now tbl id new_status).2
  = (λ r, if has_id id r then set_status new_status now r else r)
      <$> find (has_id id') tbl.
Proof.
  unfold update_ticket_status. simpl.
  induction tbl as [|r tbl IH]; simpl; [done|].
  assert (has_id id' (if has_id id r then set_status new_status now r else r)
          = has_id id' r) as ->
    by (by destruct (has_id id r)).
  destruct (has_id id' r); [done|exact IH].
Qed.

Lemma update_absent now tbl id new_status :
  id ∉ ids tbl → (update_ticket_status now tbl id new_status).2 = tbl.
Proof.
  unfold update_ticket_status, ids. simpl.
  induction tbl as [|r tbl IH]; simpl; [done|].
  rewrite not_elem_of_cons. intros [Hne Hnin].
  assert (has_id id r = false) as -> by (apply has_id_false; congruence).
  by rewrite IH.
Qed.

Lemma selected_columns_set_status new_status now r :
  selected_columns (set_status new_status now r)
  = <["status" := VStr new_status]> (<["updated_at" := VStr now]> (selected_columns r)).
Proof.
  unfold selected_columns, set_status. simpl.
  apply map_eq. intros k.
  repeat (rewrite lookup_insert; case_decide; subst; try done).
Qed.

(** C1 (as amended).  [update_ticket_status] always returns normally: for
    a ticket id absent from the store it gives no NotFound signal and
    leaves the store as it was, so no record is created; for a ticket
    id that is present, the ticket read back afterwards is the former one
    with [status] set to the new value and [updated_at] set to the time of
    the call. *)
Theorem update_ticket_status_spec (now : string) (tbl : table) (id new_status : string) :
  (update_ticket_status now tbl id new_status).1 = Returns tt
  ∧ (get_ticket tbl id = None →
       (update_ticket_status now tbl id new_status).2 = tbl
       ∧ get_ticket (update_ticket_status now tbl id new_status).2 id = None)
  ∧ (∀ d, get_ticket tbl id = Some d →
       get_ticket (update_ticket_status now tbl id new_status).2 id
       = Some (<["status" := VStr new_status]> (<["updated_at" := VStr now]> d))).
Proof.
  split; [done|]. split.
  - intros Habs. pose proof Habs as Hnin%get_ticket_None.
    by rewrite update_absent.
  - intros d. unfold get_ticket at 1 2. rewrite find_update.
    destruct (find (has_id id) tbl) as [r|] eqn:Hfind; [|discriminate].
    intros [= <-]. simpl.
    apply find_some in Hfind as [_ ->].
    by rewrite selected_columns_set_status.
Qed.

Lemma update_ticket_status_spec_witness :
  get_ticket
    (update_ticket_status "2026-11-04T10:00:00"
       (create_ticket "2026-11-04T09:00:00" [] "000042" "card blocked" None None).2
       "000042" "Closed").2
    "000042"
  = Some (<["status" := VStr "Closed"]>
          (<["updated_at" := VStr "2026-11-04T10:00:00"]>
           (selected_columns
              {| ticket_id := "000042"; customer_name := None;
                 message := "card blocked"; status := "Open";
                 created_at := "2026-11-04T09:00:00";
                 updated_at := "2026-11-04T09:00:00";
                 correlation_id := None |}))).
Proof.
  apply update_ticket_status_spec. reflexivity.
Defined.

(** C1 as stated fails: on the empty store the update of ticket 000001
    raises nothing; the caller gets the same normal return as for a ticket
    that exists. *)
Lemma update_ticket_status_absent_no_signal :
  get_ticket [] "000001" = None
  ∧ ¬ signals_failure (update_ticket_status "2026-11-04T10:00:00" [] "000001" "Closed").1
  ∧ (update_ticket_status "2026-11-04T10:00:00" [] "000001" "Closed").1
    = (update_ticket_status "2026-11-04T10:00:00"
         (create_ticket "2026-11-04T09:00:00" [] "000001" "card blocked" None None).2
         "000001" "Closed").1.
Proof.
  split; [done|]. split; [|done].
  intros [e He]. discriminate He.
Qed.

Lemma dom_selected_columns r : dom (selected_columns r) = ticket_fields.
Proof.
  unfold selected_columns, ticket_fields.
  rewrite !dom_insert_L, dom_empty_L. set_solver.
Qed.

Lemma create_ticket_fresh now tbl id message customer_name correlation_id :
  get_ticket tbl id = None →
  create_ticket now tbl id message customer_name correlation_id
  = (Returns tt,
     tbl ++ [ {| ticket_id := id; customer_name := customer_name;
                 message := message; status := "Open";
                 created_at := now; updated_at := now;
                 correlation_id := correlation_id |} ]).
Proof.
  intros Hnone. unfold create_ticket.
  destruct (existsb (has_id id) tbl) eqn:E; [|done].
  apply existsb_has_id in E. by apply get_ticket_None in Hnone.
Qed.

Lemma create_ticket_returns now tbl id message customer_name correlation_id tbl' :
  create_ticket now tbl id message customer_name correlation_id = (Returns tt, tbl') →
  get_ticket tbl id = None.
Proof.
  unfold create_ticket. destruct (existsb (has_id id) tbl) eqn:E; [discriminate|].
  intros _. apply get_ticket_None. rewrite <- existsb_has_id. by rewrite E.
Qed.

Lemma find_app_fresh tbl id r :
  get_ticket tbl id = None → ticket_id r = id →
  find (has_id id) (tbl ++ [r]) = Some r.
Proof.
  unfold get_ticket. intros Hnone Hid.
  induction tbl as [|r0 tbl IH]; simpl in *.
  - by rewrite (proj2 (has_id_true id r) Hid).
  - destruct (has_id id r0); [discriminate|]. by apply IH.
Qed.

Lemma selected_columns_no_correlation_id r :
  selected_columns r !! "correlation_id" = None.
Proof.
  apply not_elem_of_dom. rewrite dom_selected_columns.
  unfold ticket_fields. rewrite !elem_of_union, !elem_of_singleton.
  intros H. repeat destruct H as [H|H]; discriminate H.
Qed.

(** C9.  The record [get_ticket] returns for a stored ticket has exactly
    the fields ticket_id, customer_name, message, status, created_at and
    updated_at, and no correlation_id; this also holds for a ticket just
    created with a correlation id, which the table row does hold. *)
Theorem get_ticket_omits_correlation_id :
  (∀ (tbl : table) (id : string) (d : dict),
     get_ticket tbl id = Some d →
     dom d = ticket_fields ∧ d !! "correlation_id" = None)
  ∧ (∀ (now : string) (tbl tbl' : table) (id message cid : string)
       (customer_name : option string),
       create_ticket now tbl id message customer_name (Some cid) = (Returns tt, tbl') →
       ∃ r d, find (has_id id) tbl' = Some r
              ∧ correlation_id r = Some cid
              ∧ get_ticket tbl' id = Some d
              ∧ dom d = ticket_fields
              ∧ d !! "correlation_id" = None).
Proof.
  pose proof selected_columns_no_correlation_id as Hno.
  split.
  - intros tbl id d. unfold get_ticket.
    destruct (find (has_id id) tbl) as [r|]; [|discriminate].
    intros [= <-]. split; [apply dom_selected_columns|apply Hno].
  - intros now tbl tbl' id message cid customer_name Hc.
    pose proof (create_ticket_returns _ _ _ _ _ _ _ Hc) as Hnone.
    rewrite (create_ticket_fresh _ _ _ _ _ _ Hnone) in Hc.
    injection Hc as <-.
    eexists _, _. split; [by apply find_app_fresh|].
    split; [done|]. unfold get_ticket. rewrite find_app_fresh; [|done..].
    split; [done|]. split; [apply dom_selected_columns|apply Hno].
Qed.

Lemma get_ticket_omits_correlation_id_witness :
  ∃ r d,
    find (has_id "000042")
      (create_ticket "2026-11-04T09:00:00" [] "000042" "card blocked"
         (Some "TestUser") (Some "cs-1")).2 = Some r
    ∧ correlation_id r = Some "cs-1"
    ∧ get_ticket
        (create_ticket "2026-11-04T09:00:00" [] "000042" "card blocked"
           (Some "TestUser") (Some "cs-1")).2 "000042" = Some d
    ∧ dom d = ticket_fields
    ∧ d !! "correlation_id" = None.
Proof.
  apply (proj2 get_ticket_omits_correlation_id "2026-11-04T09:00:00" []
           _ "000042" "card blocked" "cs-1" (Some "TestUser")).
  reflexivity.
Defined.

(** The test harness reads [ticket['correlation_id']] from such a record:
    the lookup raises. *)
Lemma harness_correlation_id_lookup tbl id d :
  get_ticket tbl id = Some d →
  getitem d "correlation_id" = Raises (KeyError "correlation_id").
Proof.
  unfold get_ticket. destruct (find (has_id id) tbl) as [r|]; [|discriminate].
  intros [= <-]. unfold getitem. by rewrite selected_columns_no_correlation_id.
Qed.

End Store.

(* ===================================================================== *)
(** * Ticket identifiers                                                  *)
(* ===================================================================== *)

Section Format.

Lemma length_append s t : String.length (s +:+ t) = String.length s + String.length t.
Proof. induction s as [|c s IH]; simpl; [done|]. by rewrite IH. Qed.

Lemma str_forall_append p s t :
  str_forall p (s +:+ t) = str_forall p s && str_forall p t.
Proof. induction s as [|c s IH]; simpl; [done|]. by rewrite IH, andb_assoc. Qed.

Lemma append_assoc s t u : (s +:+ t) +:+ u = s +:+ t +:+ u.
Proof.
  induction s as [|c s IH]; [done|].
  change (String c ((s +:+ t) +:+ u) = String c (s +:+ t +:+ u)).
  by rewrite IH.
Qed.

Lemma digit_char_decimal d : (d < 10)%N → isdecimal (digit_char d) = true.
Proof.
  intros H.
  assert (d = 0 ∨ d = 1 ∨ d = 2 ∨ d = 3 ∨ d = 4 ∨ d = 5 ∨ d = 6 ∨ d = 7
          ∨ d = 8 ∨ d = 9)%N as Hd by lia.
  repeat destruct Hd as [->|Hd]; try reflexivity. by subst.
Qed.

Lemma decimal_go_digits fuel n acc :
  str_forall isdecimal acc = true →
  str_forall isdecimal (decimal_go fuel n acc) = true.
Proof.
  revert n acc. induction fuel as [|fuel IH]; intros n acc Hacc; simpl.
  - rewrite digit_char_decimal; [done|]. apply N.mod_lt. lia.
  - assert (str_forall isdecimal (String (digit_char (n `mod` 10)) acc) = true) as H.
    { simpl. rewrite digit_char_decimal; [done|]. apply N.mod_lt. lia. }
    destruct (n / 10 =? 0)%N; [exact H|]. by apply IH.
Qed.

Lemma decimal_go_length fuel n acc k :
  (n < 10 ^ N.of_nat (S k))%N →
  String.length (decimal_go fuel n acc) ≤ S k + String.length acc.
Proof.
  revert n acc k. induction fuel as [|fuel IH]; intros n acc k Hn; simpl; [lia|].
  destruct (n / 10 =? 0)%N eqn:E; simpl; [lia|].
  apply N.eqb_neq in E.
  destruct k as [|k].
  - exfalso. apply E. apply N.div_small. simpl in Hn. lia.
  - etrans; [apply (IH _ _ k)|simpl; lia].
    apply N.Div0.div_lt_upper_bound.
    replace (N.of_nat (S (S k))) with (N.succ (N.of_nat (S k))) in Hn by lia.
    by rewrite N.pow_succ_r' in Hn.
Qed.

Lemma zeros_length k : String.length (zeros k) = k.
Proof. induction k; simpl; [done|]. by f_equal. Qed.

Lemma zeros_digits k : str_forall isdecimal (zeros k) = true.
Proof. induction k; simpl; done. Qed.

(** The text [f"{n:06d}"] of a number drawn from 0..999999 is six decimal
    digits. *)
Lemma format_06d_six_digits n :
  (0 ≤ n ≤ 999999)%Z → six_digits (format_06d n).
Proof.
  intros [Hlo Hhi]. unfold format_06d, six_digits.
  destruct (Z.ltb_spec n 0) as [?|_]; [lia|].
  unfold zfill, decimal.
  assert (String.length (decimal_go (N.size_nat (Z.to_N n)) (Z.to_N n) EmptyString) ≤ 6) as Hlen.
  { etrans; [apply (decimal_go_length _ _ _ 5)|simpl; lia].
    change (10 ^ N.of_nat 6)%N with 1000000%N. lia. }
  split.
  - rewrite length_append, zeros_length. lia.
  - rewrite str_forall_append, zeros_digits. simpl.
    by apply decimal_go_digits.
Qed.

Lemma str_value_from_acc a s :
  str_value_from a s = (a * 10 ^ N.of_nat (String.length s) + str_value s)%N.
Proof.
  unfold str_value. revert a. induction s as [|c s IH]; intros a.
  - simpl. lia.
  - cbn [str_value_from String.length]. rewrite (IH (10 * a + _)%N), (IH (10 * 0 + _)%N).
    replace (N.of_nat (S (String.length s))) with (N.succ (N.of_nat (String.length s)))
      by lia.
    rewrite N.pow_succ_r'. lia.
Qed.

Lemma digit_value_digit_char d : (d < 10)%N → digit_value (digit_char d) = d.
Proof.
  intros H.
  assert (d = 0 ∨ d = 1 ∨ d = 2 ∨ d = 3 ∨ d = 4 ∨ d = 5 ∨ d = 6 ∨ d = 7
          ∨ d = 8 ∨ d = 9)%N as Hd by lia.
  repeat destruct Hd as [->|Hd]; try reflexivity. by subst.
Qed.

Lemma decimal_go_value fuel n acc :
  (n < 2 ^ N.of_nat fuel)%N →
  str_value (decimal_go fuel n acc)
  = (n * 10 ^ N.of_nat (String.length acc) + str_value acc)%N.
Proof.
  revert n acc. induction fuel as [|fuel IH]; intros n acc Hn.
  - simpl in Hn. assert (n = 0%N) as -> by lia.
    cbn [decimal_go]. unfold str_value at 1. cbn [str_value_from].
    rewrite str_value_from_acc. change (digit_value _) with 0%N. lia.
  - cbn [decimal_go].
    assert (str_value (String (digit_char (n `mod` 10)) acc)
            = ((n `mod` 10) * 10 ^ N.of_nat (String.length acc) + str_value acc)%N) as Hd.
    { unfold str_value at 1. cbn [str_value_from]. rewrite str_value_from_acc.
      rewrite digit_value_digit_char by (apply N.mod_lt; lia). lia. }
    destruct (N.eqb_spec (n / 10) 0) as [E|E].
    + rewrite Hd. rewrite N.mod_small; [done|].
      apply N.div_small_iff in E; lia.
    + rewrite IH, Hd.
      * cbn [String.length].
        replace (N.of_nat (S (String.length acc)))
          with (N.succ (N.of_nat (String.length acc))) by lia.
        rewrite N.pow_succ_r'.
        pose proof (N.div_mod n 10 ltac:(lia)) as Hdm.
        set (q := (n / 10)%N) in *. set (r := (n `mod` 10)%N) in *.
        set (p := (10 ^ N.of_nat (String.length acc))%N).
        clearbody q r p. rewrite Hdm. lia.
      * replace (N.of_nat (S fuel)) with (N.succ (N.of_nat fuel)) in Hn by lia.
        rewrite N.pow_succ_r' in Hn.
        apply N.Div0.div_lt_upper_bound. lia.
Qed.

Lemma size_nat_bound n : (n < 2 ^ N.of_nat (N.size_nat n))%N.
Proof.
  destruct n as [|p]; [done|]. simpl.
  induction p as [p IH|p IH|]; simpl Pos.size_nat.
  - replace (N.of_nat (S (Pos.size_nat p))) with (N.succ (N.of_nat (Pos.size_nat p)))
      by lia.
    rewrite N.pow_succ_r'. lia.
  - replace (N.of_nat (S (Pos.size_nat p))) with (N.succ (N.of_nat (Pos.size_nat p)))
      by lia.
    rewrite N.pow_succ_r'. lia.
  - done.
Qed.

(** The fuel of [decimal] suffices: the digits denote the number. *)
Lemma decimal_value n : str_value (decimal n) = n.
Proof.
  unfold decimal. rewrite decimal_go_value by apply size_nat_bound.
  simpl. unfold str_value. simpl. lia.
Qed.

Lemma zeros_value k s : str_value (zeros k +:+ s) = str_value s.
Proof. induction k as [|k IH]; [done|]. exact IH. Qed.

(** The six digits of [f"{n:06d}"] denote [n]: distinct draws give
    distinct identifiers. *)
Lemma format_06d_value n : (0 ≤ n)%Z → str_value (format_06d n) = Z.to_N n.
Proof.
  intros Hn. unfold format_06d.
  destruct (Z.ltb_spec n 0) as [?|_]; [lia|].
  unfold zfill. by rewrite zeros_value, decimal_value.
Qed.

End Format.

(* ===================================================================== *)
(** * The feedback handler                                                *)
(* ===================================================================== *)

Section Feedback.

Import db_utils feedback_agent.

Lemma generate_fresh fuel randint draw tbl id :
  _generate_unique_ticket_id fuel randint draw tbl = Returns id →
  get_ticket tbl id = None.
Proof.
  revert draw. induction fuel as [|fuel IH]; intros draw; simpl; [discriminate|].
  destruct (get_ticket tbl (format_06d (randint draw))) eqn:E; [apply IH|].
  by intros [= <-].
Qed.

Lemma generate_returns fuel randint draw tbl id :
  (∀ i, (0 ≤ randint i ≤ 999999)%Z) →
  _generate_unique_ticket_id fuel randint draw tbl = Returns id →
  six_digits id ∧ get_ticket tbl id = None.
Proof.
  intros Hrange Hgen. split; [|by eapply generate_fresh].
  revert draw Hgen.
  induction fuel as [|fuel IH]; intros draw; simpl; [discriminate|].
  destruct (get_ticket tbl (format_06d (randint draw))) eqn:E; [apply IH|].
  intros [= <-]. by apply format_06d_six_digits.
Qed.

(** The loop ends as soon as a draw is free: with more fuel than draws
    needed it returns. *)
Lemma generate_terminates fuel randint draw tbl k :
  k < fuel →
  get_ticket tbl (format_06d (randint (draw + k))) = None →
  ∃ id, _generate_unique_ticket_id fuel randint draw tbl = Returns id.
Proof.
  revert draw k. induction fuel as [|fuel IH]; intros draw k Hk Hfree; [lia|].
  simpl. destruct (get_ticket tbl (format_06d (randint draw))) eqn:E; [|by eexists].
  destruct k as [|k].
  - rewrite Nat.add_0_r in Hfree. congruence.
  - apply (IH (S draw) k); [lia|].
    by replace (S draw + k) with (draw + S k) by lia.
Qed.

(** With a free identifier within reach of the generator, the negative
    branch returns, and appends the row of the new ticket. *)
Lemma handle_feedback_negative fuel randint now tbl message customer_name correlation_id k :
  k < fuel →
  get_ticket tbl (format_06d (randint k)) = None →
  ∃ id,
    _generate_unique_ticket_id fuel randint 0 tbl = Returns id
    ∧ handle_feedback fuel randint now tbl message classifier_agent.NEGATIVE_FEEDBACK
        customer_name correlation_id
      = (Returns (result (apology_reply customer_name id) (Some id)
                    classifier_agent.NEGATIVE_FEEDBACK),
         tbl ++ [ {| ticket_id := id; customer_name := customer_name;
                     message := message; status := "Open";
                     created_at := now; updated_at := now;
                     correlation_id := correlation_id |} ]).
Proof.
  intros Hk Hfree.
  destruct (generate_terminates fuel randint 0 tbl k Hk Hfree) as [id Hgen].
  exists id. split; [done|].
  unfold handle_feedback. simpl String.eqb. rewrite Hgen.
  by rewrite (create_ticket_fresh _ _ _ _ _ _ (generate_fresh _ _ _ _ _ Hgen)).
Qed.

Lemma generate_never_raises fuel randint draw tbl e :
  _generate_unique_ticket_id fuel randint draw tbl ≠ Raises e.
Proof.
  revert draw. induction fuel as [|fuel IH]; intros draw; simpl; [discriminate|].
  destruct (get_ticket tbl _); [apply IH|discriminate].
Qed.

Lemma ids_app tbl r : ids (tbl ++ [r]) = ids tbl ++ [ticket_id r].
Proof. unfold ids. by rewrite map_app. Qed.

Lemma create_ticket_NoDup now tbl id message customer_name correlation_id :
  NoDup (ids tbl) →
  NoDup (ids (create_ticket now tbl id message customer_name correlation_id).2).
Proof.
  intros Hnd. unfold create_ticket.
  destruct (existsb (has_id id) tbl) eqn:E; simpl; [done|].
  rewrite ids_app. simpl. apply NoDup_app. split; [done|]. split.
  - intros x Hx Hin%list_elem_of_singleton. subst x.
    apply existsb_has_id in Hx. congruence.
  - apply NoDup_singleton.
Qed.

Lemma handle_feedback_table fuel randint now tbl message sentiment customer_name correlation_id :
  (handle_feedback fuel randint now tbl message sentiment customer_name correlation_id).2 = tbl
  ∨ ∃ id,
      (handle_feedback fuel randint now tbl message sentiment customer_name correlation_id).2
      = (create_ticket now tbl id message customer_name correlation_id).2.
Proof.
  unfold handle_feedback.
  destruct (String.eqb sentiment _); [by left|].
  destruct (String.eqb sentiment _); [|by left].
  destruct (_generate_unique_ticket_id fuel randint 0 tbl) as [id| |]; [|by left..].
  right. exists id.
  by destruct (create_ticket now tbl id message customer_name correlation_id)
    as [[| |] tbl'].
Qed.

Lemma reachable_NoDup tbl : reachable tbl → NoDup (ids tbl).
Proof.
  induction 1 as [| | |fuel randint now tbl message sentiment cn cid _ IH].
  - apply NoDup_nil_2.
  - by apply create_ticket_NoDup.
  - by rewrite ids_update.
  - destruct (handle_feedback_table fuel randint now tbl message sentiment cn cid)
      as [->|[id ->]]; [done|].
    by apply create_ticket_NoDup.
Qed.

(** C4.  An identifier produced by [_generate_unique_ticket_id] is a
    six-digit, zero-padded decimal string that the store did not hold when
    it was returned; [create_ticket] keeps the ticket ids of the store
    pairwise distinct; and so they are in every table a store instance
    can reach from the empty one. *)
Theorem ticket_ids_six_digits_and_distinct :
  (∀ fuel randint draw tbl id,
     (∀ i, (0 ≤ randint i ≤ 999999)%Z) →
     _generate_unique_ticket_id fuel randint draw tbl = Returns id →
     six_digits id ∧ get_ticket tbl id = None)
  ∧ (∀ now tbl id message customer_name correlation_id,
       NoDup (ids tbl) →
       NoDup (ids (create_ticket now tbl id message customer_name correlation_id).2))
  ∧ (∀ tbl, reachable tbl → NoDup (ids tbl)).
Proof.
  split; [exact generate_returns|].
  split; [exact create_ticket_NoDup|exact reachable_NoDup].
Qed.

Lemma ticket_ids_six_digits_and_distinct_witness :
  (six_digits "000007" ∧ get_ticket [] "000007" = None)
  ∧ NoDup (ids (create_ticket "2026-11-04T09:00:00"
                  (create_ticket "2026-11-04T08:00:00" [] "000007" "first" None None).2
                  "000007" "second" None None).2).
Proof.
  split.
  - apply (proj1 ticket_ids_six_digits_and_distinct 1 (λ _, 7%Z) 0 [] "000007").
    + intros _. lia.
    + reflexivity.
  - apply (proj2 (proj2 ticket_ids_six_digits_and_distinct)).
    do 2 apply reachable_create. apply reachable_init.
Defined.

Lemma embeds_apology customer_name id : embeds id (apology_reply customer_name id).
Proof.
  unfold embeds, apology_reply.
  exists ("We're really sorry to hear about your experience, "
          +:+ customer_display customer_name +:+ ". "
          +:+ "I've created a support ticket for you: #"),
         (". " +:+ "Our team will review this and get back to you as soon as possible.").
  by rewrite !append_assoc.
Qed.

(** C6.  Handling a message with sentiment NEGATIVE_FEEDBACK, once the
    generator has drawn an identifier the store does not hold (draw [k],
    within the fuel), appends exactly one row to the table, with status
    "Open" and the original message; the handler returns the id of that
    row, six decimal digits, as [ticket_id], and a reply that contains
    it. *)
Theorem negative_feedback_creates_ticket
    (fuel : nat) (randint : nat → Z) (now : string) (tbl : table)
    (message : string) (customer_name correlation_id : option string) (k : nat) :
  (∀ i, (0 ≤ randint i ≤ 999999)%Z) →
  k < fuel →
  get_ticket tbl (format_06d (randint k)) = None →
  ∃ id r res,
    handle_feedback fuel randint now tbl message classifier_agent.NEGATIVE_FEEDBACK
      customer_name correlation_id = (Returns res, tbl ++ [r])
    ∧ get_ticket tbl id = None
    ∧ ticket_id r = id ∧ status r = "Open" ∧ db_utils.message r = message
    ∧ six_digits id
    ∧ res !! "ticket_id" = Some (VStr id)
    ∧ (∃ reply, res !! "reply" = Some (VStr reply) ∧ embeds id reply)
    ∧ (∃ d, get_ticket (tbl ++ [r]) id = Some d
            ∧ d !! "status" = Some (VStr "Open")
            ∧ d !! "message" = Some (VStr message)).
Proof.
  intros Hrange Hk Hfree.
  destruct (generate_terminates fuel randint 0 tbl k Hk Hfree) as [id Hgen].
  destruct (generate_returns _ _ _ _ _ Hrange Hgen) as [Hsix Hnone].
  unfold handle_feedback. simpl String.eqb. rewrite Hgen.
  rewrite (create_ticket_fresh _ _ _ _ _ _ Hnone).
  eexists id, _, _. split; [reflexivity|].
  repeat (split; [done|]).
  split; [eexists; split; [done|apply embeds_apology]|].
  eexists. unfold get_ticket. rewrite find_app_fresh; [|done..].
  split; [reflexivity|]. done.
Qed.

Lemma negative_feedback_creates_ticket_witness :
  ∃ id r res,
    handle_feedback 2 (λ i, if Nat.eqb i 0 then 42%Z else 7%Z) "2026-11-04T09:00:00"
      (create_ticket "2026-11-04T08:00:00" [] "000042" "first" None None).2
      "Money was debited but ATM did not dispense cash."
      classifier_agent.NEGATIVE_FEEDBACK (Some "TestUser") (Some "cs-1")
    = (Returns res,
       (create_ticket "2026-11-04T08:00:00" [] "000042" "first" None None).2 ++ [r])
    ∧ get_ticket (create_ticket "2026-11-04T08:00:00" [] "000042" "first" None None).2 id
      = None
    ∧ ticket_id r = id ∧ status r = "Open"
    ∧ db_utils.message r = "Money was debited but ATM did not dispense cash."
    ∧ six_digits id
    ∧ res !! "ticket_id" = Some (VStr id)
    ∧ (∃ reply, res !! "reply" = Some (VStr reply) ∧ embeds id reply)
    ∧ (∃ d, get_ticket
              ((create_ticket "2026-11-04T08:00:00" [] "000042" "first" None None).2 ++ [r])
              id = Some d
            ∧ d !! "status" = Some (VStr "Open")
            ∧ d !! "message"
              = Some (VStr "Money was debited but ATM did not dispense cash.")).
Proof.
  apply (negative_feedback_creates_ticket 2 _ _ _ _ _ _ 1).
  - intros i. destruct (Nat.eqb i 0); lia.
  - lia.
  - reflexivity.
Defined.

(** C8 (as amended).  For a sentiment that is neither POSITIVE_FEEDBACK
    nor NEGATIVE_FEEDBACK the feedback handler raises nothing: it returns
    the generic reply "Thank you for your message." with no ticket id, and
    leaves the store as it was. *)
Theorem unknown_sentiment_generic_reply
    (fuel : nat) (randint : nat → Z) (now : string) (tbl : table)
    (message sentiment : string) (customer_name correlation_id : option string) :
  sentiment ≠ classifier_agent.POSITIVE_FEEDBACK →
  sentiment ≠ classifier_agent.NEGATIVE_FEEDBACK →
  handle_feedback fuel randint now tbl message sentiment customer_name correlation_id
  = (Returns (result "Thank you for your message." None sentiment), tbl).
Proof.
  intros Hp%String.eqb_neq Hn%String.eqb_neq.
  unfold handle_feedback. by rewrite Hp, Hn.
Qed.

Lemma unknown_sentiment_generic_reply_witness :
  handle_feedback 1 (λ _, 7%Z) "2026-11-04T09:00:00" [] "Where is my card" "QUERY"
    None None
  = (Returns (result "Thank you for your message." None "QUERY"), []).
Proof.
  apply unknown_sentiment_generic_reply; discriminate.
Defined.

(** C8 as stated fails: given the sentiment "QUERY" the handler does not
    raise; it returns a reply. *)
Lemma unknown_sentiment_not_loud :
  "QUERY" ≠ classifier_agent.POSITIVE_FEEDBACK
  ∧ "QUERY" ≠ classifier_agent.NEGATIVE_FEEDBACK
  ∧ ¬ signals_failure
        (handle_feedback 1 (λ _, 7%Z) "2026-11-04T09:00:00" [] "Where is my card"
           "QUERY" None None).1
  ∧ (handle_feedback 1 (λ _, 7%Z) "2026-11-04T09:00:00" [] "Where is my card"
       "QUERY" None None).1
    = Returns (result "Thank you for your message." None "QUERY").
Proof.
  split; [discriminate|]. split; [discriminate|]. split; [|reflexivity].
  intros [e He]. discriminate He.
Qed.

End Feedback.

(* ===================================================================== *)
(** * The query handler                                                   *)
(* ===================================================================== *)

Section Query.

Import db_utils query_agent.

Lemma digits_spec k prev s d last rest :
  digits k prev s = Some (d, last, rest)
  ↔ s = d +:+ rest ∧ String.length d = k ∧ str_forall isdecimal d = true
    ∧ last = last_from prev d.
Proof.
  revert prev s d last rest.
  induction k as [|k IH]; intros prev s d last rest; simpl.
  - split.
    + by intros [= <- <- <-].
    + intros (-> & Hlen & _ & ->). by destruct d.
  - split.
    + destruct s as [|c s]; [discriminate|].
      destruct (isdecimal c) eqn:Ec; [|discriminate].
      destruct (digits k (Some c) s) as [[[d' last'] rest']|] eqn:E; [|discriminate].
      intros [= <- <- <-]. apply IH in E as (-> & <- & Hd & ->).
      simpl. by rewrite Ec, Hd.
    + intros (-> & Hlen & Hd & ->).
      destruct d as [|c d]; [discriminate|]. simpl in *.
      apply andb_prop in Hd as [-> Hd].
      rewrite (proj2 (IH (Some c) (d +:+ rest) d (last_from (Some c) d) rest)); [done|].
      repeat split; [lia|done].
Qed.

Lemma match_here_spec prev s d :
  match_here prev s = Some d
  ↔ ∃ after, s = d +:+ after ∧ run_between prev EmptyString d after.
Proof.
  unfold match_here, run_between, six_digits. simpl last_from. split.
  - destruct (word_boundary prev (head s)) eqn:Hb; [|discriminate].
    destruct (digits 6 prev s) as [[[g last] rest]|] eqn:E; [|discriminate].
    destruct (word_boundary last (head rest)) eqn:Ha; [|discriminate].
    intros [= <-]. apply digits_spec in E as (-> & Hlen & Hd & ->).
    by exists rest.
  - intros (after & -> & [Hlen Hd] & Hb & Ha). rewrite Hb.
    rewrite (proj2 (digits_spec 6 prev (d +:+ after) d (last_from prev d) after));
      [|done].
    by rewrite Ha.
Qed.

Lemma run_between_cons prev c before d after :
  run_between prev (String c before) d after ↔ run_between (Some c) before d after.
Proof. done. Qed.

Lemma search_from_None prev s :
  search_from prev s = None →
  ∀ before d after, s = before +:+ d +:+ after → ¬ run_between prev before d after.
Proof.
  revert prev. induction s as [|c s IH]; intros prev; simpl.
  - destruct (match_here prev EmptyString) eqn:E; [discriminate|]. intros _.
    intros [|? ?] d after Hs Hrun; [|discriminate].
    assert (match_here prev EmptyString = Some d) as Hm
      by (apply match_here_spec; eauto).
    congruence.
  - destruct (match_here prev (String c s)) eqn:E; [discriminate|]. intros Hs.
    intros [|c' before] d after Hdec Hrun.
    + assert (match_here prev (String c s) = Some d) as Hm
        by (apply match_here_spec; eauto).
      congruence.
    + injection Hdec as <- ->.
      exact (IH (Some c) Hs before d after eq_refl Hrun).
Qed.

Lemma search_from_Some prev s d :
  search_from prev s = Some d →
  ∃ before after,
    s = before +:+ d +:+ after ∧ run_between prev before d after
    ∧ ∀ before' d' after',
        s = before' +:+ d' +:+ after' → run_between prev before' d' after' →
        String.length before ≤ String.length before'.
Proof.
  revert prev. induction s as [|c s IH]; intros prev; simpl.
  - destruct (match_here prev EmptyString) as [g|] eqn:E; [|discriminate].
    intros [= ->]. apply match_here_spec in E as (after & Hs & Hrun).
    exists EmptyString, after. split; [done|]. split; [done|]. simpl. lia.
  - destruct (match_here prev (String c s)) as [g|] eqn:E.
    + intros [= ->]. apply match_here_spec in E as (after & Hs & Hrun).
      exists EmptyString, after. split; [done|]. split; [done|]. simpl. lia.
    + intros (before & after & -> & Hrun & Hleft)%IH.
      exists (String c before), after. split; [done|]. split; [done|].
      intros [|c' before'] d' after' Hdec Hrun'.
      * assert (match_here prev (String c (before +:+ d +:+ after)) = Some d') as Hm
          by (apply match_here_spec; eauto).
        congruence.
      * injection Hdec as <- Hdec. simpl.
        apply le_n_S. exact (Hleft before' d' after' Hdec Hrun').
Qed.

Lemma append_inj_length s1 t1 s2 t2 :
  s1 +:+ t1 = s2 +:+ t2 → String.length s1 = String.length s2 →
  s1 = s2 ∧ t1 = t2.
Proof.
  revert s2. induction s1 as [|c s1 IH]; intros [|c2 s2]; simpl; try done.
  intros [= -> H] [= Hlen]. destruct (IH _ H Hlen) as [-> ->]. done.
Qed.

(** What [_extract_ticket_id] yields when the message has a run, and when
    it has none. *)
Lemma extract_leftmost message before d after :
  six_digit_run message before d after →
  (∀ before' d' after', six_digit_run message before' d' after' →
                        String.length before ≤ String.length before') →
  _extract_ticket_id message = Some d.
Proof.
  intros [Hdec Hrun] Hleft. unfold _extract_ticket_id, TICKET_PATTERN_search.
  destruct (search_from None message) as [g|] eqn:E.
  - apply search_from_Some in E as (before0 & after0 & Hdec0 & Hrun0 & Hleft0).
    assert (String.length before0 = String.length before) as Hlen.
    { apply Nat.le_antisymm; [by eapply Hleft0|].
      apply (Hleft before0 g after0). by split. }
    rewrite Hdec in Hdec0.
    apply append_inj_length in Hdec0 as [_ Hrest]; [|done].
    apply append_inj_length in Hrest as [-> _]; [done|].
    destruct Hrun as [[-> _] _]. by destruct Hrun0 as [[-> _] _].
  - exfalso. by eapply search_from_None.
Qed.

Lemma extract_none message :
  (∀ before d after, ¬ six_digit_run message before d after) →
  _extract_ticket_id message = None.
Proof.
  intros Hnone. unfold _extract_ticket_id, TICKET_PATTERN_search.
  destruct (search_from None message) as [g|] eqn:E; [|done].
  apply search_from_Some in E as (before & after & Hdec & Hrun & _).
  exfalso. by apply (Hnone before g after).
Qed.

Lemma selected_columns_status r :
  getstr (selected_columns r) "status" = Returns (status r).
Proof. reflexivity. Qed.

(** C7.  When the message has no run of exactly six decimal digits with a
    word boundary on either side, [handle_query] returns found=false, no
    ticket id, and the reply that asks for a 6-digit ticket ID.  When it
    has such runs, the leftmost one is the extracted id, and the only one
    looked up: the answer reports that ticket as not found, or gives its
    status. *)
Theorem handle_query_uses_leftmost_run (tbl : table) (message : string) :
  ((∀ before d after, ¬ six_digit_run message before d after) →
     _extract_ticket_id message = None
     ∧ ∃ res, handle_query tbl message = Returns res
              ∧ res !! "found" = Some (VBool false)
              ∧ res !! "ticket_id" = Some VNone
              ∧ res !! "reply" = Some (VStr no_id_reply)
              ∧ str_in "share your 6-digit ticket ID" no_id_reply = true)
  ∧ (∀ before d after,
       six_digit_run message before d after →
       (∀ before' d' after', six_digit_run message before' d' after' →
                             String.length before ≤ String.length before') →
       _extract_ticket_id message = Some d
       ∧ handle_query tbl message
         = match find (has_id d) tbl with
           | None => Returns (result (not_found_reply d) (Some d) false)
           | Some r => Returns (result (status_reply d (status r)) (Some d) true)
           end).
Proof.
  split.
  - intros Hnone%extract_none. split; [done|].
    unfold handle_query. rewrite Hnone. simpl.
    eexists. split; [reflexivity|]. done.
  - intros before d after Hrun Hleft.
    pose proof (extract_leftmost _ _ _ _ Hrun Hleft) as He. split; [done|].
    unfold handle_query. rewrite He.
    assert (usable (Some d) = Some d) as ->.
    { destruct Hrun as [_ [[Hlen _] _]]. by destruct d. }
    unfold get_ticket. destruct (find (has_id d) tbl) as [r|]; [|done].
    by rewrite selected_columns_status.
Qed.

Lemma handle_query_uses_leftmost_run_witness :
  (_extract_ticket_id "call 1234567 or x123456" = None
   ∧ ∃ res, handle_query [] "call 1234567 or x123456" = Returns res
            ∧ res !! "found" = Some (VBool false)
            ∧ res !! "ticket_id" = Some VNone
            ∧ res !! "reply" = Some (VStr no_id_reply)
            ∧ str_in "share your 6-digit ticket ID" no_id_reply = true)
  ∧ (_extract_ticket_id "tickets 123456, 654321" = Some "123456"
     ∧ handle_query
         (create_ticket "2026-11-04T08:00:00" [] "654321" "first" None None).2
         "tickets 123456, 654321"
       = match find (has_id "123456")
                 (create_ticket "2026-11-04T08:00:00" [] "654321" "first" None None).2 with
         | None => Returns (result (not_found_reply "123456") (Some "123456") false)
         | Some r => Returns (result (status_reply "123456" (status r)) (Some "123456") true)
         end).
Proof.
  split.
  - apply handle_query_uses_leftmost_run.
    intros before d after [Hdec Hrun].
    assert (_extract_ticket_id "call 1234567 or x123456" = None) as Hnone
      by reflexivity.
    unfold _extract_ticket_id, TICKET_PATTERN_search in Hnone.
    destruct (search_from None "call 1234567 or x123456") eqn:E; [discriminate|].
    by eapply search_from_None.
  - apply (proj2 (handle_query_uses_leftmost_run _ _) "tickets " "123456" ", 654321").
    + split; [reflexivity|]. repeat split; reflexivity.
    + intros before' d' after' [Hdec Hrun].
      assert (search_from None "tickets 123456, 654321" = Some "123456") as Hs
        by reflexivity.
      apply search_from_Some in Hs as (b0 & a0 & Hdec0 & Hrun0 & Hleft0).
      assert (String.length b0 = 8) as Hb0.
      { destruct (Nat.lt_trichotomy (String.length b0) 8) as [Hlt|[Heq|Hgt]]; [|done|].
        - exfalso. clear Hleft0 Hdec Hrun Hrun0.
          do 8 (destruct b0 as [|? b0];
                [discriminate Hdec0|injection Hdec0 as _ Hdec0]).
          simpl in Hlt. lia.
        - exfalso. specialize (Hleft0 "tickets " "123456" ", 654321" eq_refl).
          assert (String.length b0 ≤ 8); [|lia].
          apply Hleft0. repeat split; reflexivity. }
      change (String.length "tickets ") with 8. rewrite <- Hb0.
      by eapply Hleft0.
Defined.

End Query.

(* ===================================================================== *)
(** * The two entry points                                                *)
(* ===================================================================== *)

Section Pipeline.

Import db_utils.

Lemma classified_lookups m cn cid cls :
  classified m cn cid cls !! "message" = Some m
  ∧ classified m cn cid cls !! "customer_name" = Some cn
  ∧ classified m cn cid cls !! "correlation_id" = Some cid
  ∧ classified m cn cid cls !! "classification" = Some cls.
Proof. vm_compute. done. Qed.

Lemma final_lookups m cn cid cls reply tid handler stamp :
  let d := dict_update (classified m cn cid cls)
             (<["reply" := reply]> (<["ticket_id" := tid]>
              (<["handled_by" := handler]> (<["processed_at" := stamp]> ∅)))) in
  d !! "reply" = Some reply
  ∧ d !! "ticket_id" = Some tid
  ∧ d !! "classification" = Some cls
  ∧ d !! "handled_by" = Some handler
  ∧ d !! "correlation_id" = Some cid
  ∧ d !! "processed_at" = Some stamp.
Proof. vm_compute. done. Qed.

Lemma get_optional_of_optional (d : dict) k o :
  d !! k = Some (of_optional o) → get_optional d k = o.
Proof. unfold get_optional. intros ->. by destruct o. Qed.

Lemma handle_query_returns tbl message :
  ∃ reply ticket_id found,
    query_agent.handle_query tbl message
    = Returns (query_agent.result reply ticket_id found).
Proof.
  unfold query_agent.handle_query.
  destruct (query_agent.usable _) as [id|]; [|by eexists _, _, _].
  unfold get_ticket. destruct (find (has_id id) tbl) as [r|]; [|by eexists _, _, _].
  rewrite selected_columns_status. by eexists _, _, _.
Qed.

Lemma feedback_result_lookups reply ticket_id sentiment :
  getstr (feedback_agent.result reply ticket_id sentiment) "reply" = Returns reply
  ∧ getitem (feedback_agent.result reply ticket_id sentiment) "ticket_id"
    = Returns (of_optional ticket_id)
  ∧ feedback_agent.result reply ticket_id sentiment !! "reply" = Some (VStr reply)
  ∧ feedback_agent.result reply ticket_id sentiment !! "ticket_id"
    = Some (of_optional ticket_id).
Proof. vm_compute. done. Qed.

Lemma query_result_lookups reply ticket_id found :
  getstr (query_agent.result reply ticket_id found) "reply" = Returns reply
  ∧ getitem (query_agent.result reply ticket_id found) "ticket_id"
    = Returns (of_optional ticket_id)
  ∧ query_agent.result reply ticket_id found !! "reply" = Some (VStr reply)
  ∧ query_agent.result reply ticket_id found !! "ticket_id"
    = Some (of_optional ticket_id).
Proof. vm_compute. done. Qed.

Lemma node_classifier_classified env message cn cid :
  langgraph_impl.node_classifier env (initial (VStr message) cn (VStr cid))
  = Returns (<["classification" :=
                 VStr (classifier_agent.classify_message (remote env) message true)]> ∅).
Proof. reflexivity. Qed.

Lemma node_feedback_classified env fuel tbl message cn cid sentiment :
  langgraph_impl.node_feedback env fuel tbl
    (classified (VStr message) (of_optional cn) (VStr cid) (VStr sentiment))
  = match feedback_agent.handle_feedback fuel (randint env) (utcnow env 0) tbl
            message sentiment cn (Some cid) with
    | (Returns result, tbl') =>
        (reply ← getstr result "reply";
         ticket_id ← getitem result "ticket_id";
         Returns (langgraph_impl.node_update reply ticket_id "FeedbackAgent"
                    (if String.eqb sentiment classifier_agent.NEGATIVE_FEEDBACK
                     then utcnow env 1 else utcnow env 0)),
         tbl')
    | (Raises e, tbl') => (Raises e, tbl')
    | (OutOfFuel, tbl') => (OutOfFuel, tbl')
    end.
Proof.
  unfold langgraph_impl.node_feedback.
  destruct (classified_lookups (VStr message) (of_optional cn) (VStr cid) (VStr sentiment))
    as (Hm & Hcn & Hcid & Hcls).
  rewrite (get_optional_of_optional _ _ _ Hcn).
  unfold getstr, getitem. rewrite Hm, Hcid, Hcls. reflexivity.
Qed.

Lemma node_query_classified env tbl message cn cid cls :
  langgraph_impl.node_query env tbl (classified (VStr message) cn (VStr cid) cls)
  = (result ← query_agent.handle_query tbl message;
     reply ← getstr result "reply";
     ticket_id ← getitem result "ticket_id";
     Returns (langgraph_impl.node_update reply ticket_id "QueryAgent" (utcnow env 0))).
Proof.
  unfold langgraph_impl.node_query.
  destruct (classified_lookups (VStr message) cn (VStr cid) cls) as (Hm & _ & Hcid & _).
  unfold getstr, getitem. rewrite Hm, Hcid. reflexivity.
Qed.

Lemma route_classified message cn cid cls :
  langgraph_impl.route_after_classification
    (classified (VStr message) cn (VStr cid) (VStr cls))
  = Returns (if elem_in cls [classifier_agent.POSITIVE_FEEDBACK;
                             classifier_agent.NEGATIVE_FEEDBACK]
             then "feedback" else "query").
Proof.
  unfold langgraph_impl.route_after_classification.
  destruct (classified_lookups (VStr message) cn (VStr cid) (VStr cls)) as (_ & _ & Hcid & Hcls).
  unfold getstr, getitem. rewrite Hcls, Hcid.
  cbv beta iota delta [mbind outcome_bind].
  by destruct (elem_in cls _).
Qed.

(** The graph run, node by node. *)
Lemma run_support_graph_unfold env fuel tbl message cn :
  let cid := "cs-" +:+ uuid4 env in
  let cls := classifier_agent.classify_message (remote env) message true in
  let state1 := classified (VStr message) (of_optional cn) (VStr cid) (VStr cls) in
  langgraph_impl.run_support_graph env fuel tbl message cn
  = if elem_in cls [classifier_agent.POSITIVE_FEEDBACK; classifier_agent.NEGATIVE_FEEDBACK]
    then
      match langgraph_impl.node_feedback env fuel tbl state1 with
      | (Returns update2, tbl') => (Returns (dict_update state1 update2), tbl')
      | (Raises e, tbl') => (Raises e, tbl')
      | (OutOfFuel, tbl') => (OutOfFuel, tbl')
      end
    else
      (update2 ← langgraph_impl.node_query env tbl state1;
       Returns (dict_update state1 update2),
       tbl).
Proof.
  intros cid cls state1.
  unfold langgraph_impl.run_support_graph, langgraph_impl.invoke.
  change (<["message":=VStr message]> _)
    with (initial (VStr message) (of_optional cn) (VStr cid)).
  rewrite node_classifier_classified.
  fold cls.
  fold (classified (VStr message) (of_optional cn) (VStr cid) (VStr cls)).
  fold state1.
  unfold state1 at 1. rewrite route_classified. fold state1.
  by destruct (elem_in cls _).
Qed.

Lemma handle_feedback_positive fuel randint now tbl message customer_name correlation_id :
  feedback_agent.handle_feedback fuel randint now tbl message
    classifier_agent.POSITIVE_FEEDBACK customer_name correlation_id
  = (Returns (feedback_agent.result (feedback_agent.thanks_reply customer_name) None
                classifier_agent.POSITIVE_FEEDBACK), tbl).
Proof. reflexivity. Qed.

Lemma orchestrator_result_dom message classification handled_by reply ticket_id :
  dom (orchestrator.result message classification handled_by reply ticket_id)
  = orchestrator_fields.
Proof.
  unfold orchestrator.result, orchestrator_fields.
  rewrite !dom_insert_L, dom_empty_L. set_solver.
Qed.

(** The orchestrator returns a record of its five fields. *)
Lemma process_customer_message_returns env fuel tbl message cn k :
  k < fuel →
  get_ticket tbl (format_06d (randint env k)) = None →
  ∃ handled_by reply ticket_id tbl',
    orchestrator.process_customer_message env fuel tbl message cn
    = (Returns (orchestrator.result message
                  (classifier_agent.classify_message (remote env) message true)
                  handled_by reply ticket_id), tbl').
Proof.
  intros Hk Hfree. unfold orchestrator.process_customer_message. cbv zeta.
  destruct (classify_message_label (remote env) message true)
    as [-> | [-> | ->]].
  - change (elem_in classifier_agent.POSITIVE_FEEDBACK [_; _]) with true. cbv iota.
    rewrite handle_feedback_positive.
    destruct (feedback_result_lookups (feedback_agent.thanks_reply cn) None
                classifier_agent.POSITIVE_FEEDBACK) as (-> & -> & _).
    by eexists _, _, _, _.
  - change (elem_in classifier_agent.NEGATIVE_FEEDBACK [_; _]) with true. cbv iota.
    destruct (handle_feedback_negative fuel (randint env) (utcnow env 0) tbl message
                cn None k Hk Hfree) as (id & _ & ->).
    destruct (feedback_result_lookups (feedback_agent.apology_reply cn id) (Some id)
                classifier_agent.NEGATIVE_FEEDBACK) as (-> & -> & _).
    by eexists _, _, _, _.
  - change (elem_in classifier_agent.QUERY [_; _]) with false.
    change (String.eqb classifier_agent.QUERY classifier_agent.QUERY) with true.
    cbv iota.
    destruct (handle_query_returns tbl message) as (reply & tid & found & ->).
    destruct (query_result_lookups reply tid found) as (Hr & Ht & _).
    change (mbind ?f (Returns ?x)) with (f x). cbv beta.
    rewrite Hr. change (mbind ?f (Returns ?x)) with (f x). cbv beta.
    rewrite Ht.
    by eexists _, _, _, _.
Qed.

(** C3 (as amended).  Provided the id generator reaches an unused id
    (draw [k], within the fuel), [run_support_graph] returns a record
    holding reply, ticket_id, classification, handled_by, correlation_id and
    processed_at: the classification is the classifier's label, the
    correlation id the one made at entry, handled_by names the handler that
    produced the reply and the ticket id, and processed_at is the clock
    reading the handler's node takes after the handler has run.
    [process_customer_message] returns a record of exactly
    original_message, classification, handled_by, reply and ticket_id. *)
Theorem run_support_graph_result
    (env : environment) (fuel : nat) (tbl : table) (message : string)
    (cn : option string) (k : nat) :
  k < fuel →
  get_ticket tbl (format_06d (randint env k)) = None →
  (∃ d tbl' reply ticket_id handled_by processed_at,
     langgraph_impl.run_support_graph env fuel tbl message cn = (Returns d, tbl')
     ∧ d !! "reply" = Some (VStr reply)
     ∧ d !! "ticket_id" = Some ticket_id
     ∧ d !! "classification"
       = Some (VStr (classifier_agent.classify_message (remote env) message true))
     ∧ d !! "handled_by" = Some (VStr handled_by)
     ∧ d !! "correlation_id" = Some (VStr ("cs-" +:+ uuid4 env))
     ∧ d !! "processed_at" = Some (VStr processed_at)
     ∧ ((classifier_agent.classify_message (remote env) message true
           ≠ classifier_agent.QUERY
         ∧ handled_by = "FeedbackAgent"
         ∧ processed_at
           = utcnow env
               (if String.eqb (classifier_agent.classify_message (remote env) message true)
                     classifier_agent.NEGATIVE_FEEDBACK
                then 1 else 0)
         ∧ ∃ res,
             feedback_agent.handle_feedback fuel (randint env) (utcnow env 0) tbl message
               (classifier_agent.classify_message (remote env) message true) cn
               (Some ("cs-" +:+ uuid4 env)) = (Returns res, tbl')
             ∧ res !! "reply" = Some (VStr reply)
             ∧ res !! "ticket_id" = Some ticket_id)
        ∨ (classifier_agent.classify_message (remote env) message true
             = classifier_agent.QUERY
           ∧ handled_by = "QueryAgent"
           ∧ processed_at = utcnow env 0
           ∧ tbl' = tbl
           ∧ ∃ res,
               query_agent.handle_query tbl message = Returns res
               ∧ res !! "reply" = Some (VStr reply)
               ∧ res !! "ticket_id" = Some ticket_id)))
  ∧ (∃ d tbl',
       orchestrator.process_customer_message env fuel tbl message cn = (Returns d, tbl')
       ∧ dom d = orchestrator_fields).
Proof.
  intros Hk Hfree. split.
  - pose proof (run_support_graph_unfold env fuel tbl message cn) as Hrun.
    cbv zeta in Hrun. rewrite Hrun. clear Hrun.
    rewrite node_feedback_classified, node_query_classified.
    destruct (classify_message_label (remote env) message true)
      as [Hc|[Hc|Hc]]; rewrite Hc.
    + change (elem_in classifier_agent.POSITIVE_FEEDBACK [_; _]) with true. cbv iota.
      rewrite handle_feedback_positive.
      destruct (feedback_result_lookups (feedback_agent.thanks_reply cn) None
                  classifier_agent.POSITIVE_FEEDBACK) as (-> & -> & Hr & Ht).
      eexists _, _, _, _, _, _. split; [reflexivity|].
      destruct (final_lookups (VStr message) (of_optional cn) (VStr ("cs-" +:+ uuid4 env))
                  (VStr classifier_agent.POSITIVE_FEEDBACK)
                  (VStr (feedback_agent.thanks_reply cn)) VNone (VStr "FeedbackAgent")
                  (VStr (utcnow env 0)))
        as (H1 & H2 & H3 & H4 & H5 & H6).
      repeat (split; [eassumption|]).
      left. split; [discriminate|]. split; [done|]. split; [done|].
      eexists. split; [reflexivity|]. by split.
    + change (elem_in classifier_agent.NEGATIVE_FEEDBACK [_; _]) with true. cbv iota.
      destruct (handle_feedback_negative fuel (randint env) (utcnow env 0) tbl message
                  cn (Some ("cs-" +:+ uuid4 env)) k Hk Hfree) as (id & _ & Hf).
      rewrite Hf.
      destruct (feedback_result_lookups (feedback_agent.apology_reply cn id) (Some id)
                  classifier_agent.NEGATIVE_FEEDBACK) as (-> & -> & Hr & Ht).
      eexists _, _, _, _, _, _. split; [reflexivity|].
      destruct (final_lookups (VStr message) (of_optional cn) (VStr ("cs-" +:+ uuid4 env))
                  (VStr classifier_agent.NEGATIVE_FEEDBACK)
                  (VStr (feedback_agent.apology_reply cn id)) (VStr id)
                  (VStr "FeedbackAgent") (VStr (utcnow env 1)))
        as (H1 & H2 & H3 & H4 & H5 & H6).
      repeat (split; [eassumption|]).
      left. split; [discriminate|]. split; [done|]. split; [done|].
      eexists. split; [reflexivity|]. by split.
    + change (elem_in classifier_agent.QUERY [_; _]) with false. cbv iota.
      destruct (handle_query_returns tbl message) as (reply & tid & found & Hq).
      rewrite Hq.
      destruct (query_result_lookups reply tid found) as (Hr & Ht & Hr' & Ht').
      change (mbind ?f (Returns ?x)) with (f x). cbv beta.
      rewrite Hr. change (mbind ?f (Returns ?x)) with (f x). cbv beta.
      rewrite Ht. change (mbind ?f (Returns ?x)) with (f x). cbv beta.
      eexists _, _, _, _, _, _. split; [reflexivity|].
      destruct (final_lookups (VStr message) (of_optional cn) (VStr ("cs-" +:+ uuid4 env))
                  (VStr classifier_agent.QUERY) (VStr reply) (of_optional tid)
                  (VStr "QueryAgent") (VStr (utcnow env 0)))
        as (H1 & H2 & H3 & H4 & H5 & H6).
      repeat (split; [eassumption|]).
      right. split; [done|]. split; [done|]. split; [done|]. split; [done|].
      eexists. split; [reflexivity|]. by split.
  - destruct (process_customer_message_returns env fuel tbl message cn k Hk Hfree)
      as (h & r & t & tbl' & ->).
    eexists _, _. split; [reflexivity|]. apply orchestrator_result_dom.
Qed.

Lemma run_support_graph_result_witness :
  (∃ d tbl',
     langgraph_impl.run_support_graph offline 2 []
       "Money was debited but ATM did not dispense cash." (Some "TestUser")
     = (Returns d, tbl')
     ∧ d !! "classification" = Some (VStr "NEGATIVE_FEEDBACK")
     ∧ d !! "handled_by" = Some (VStr "FeedbackAgent")
     ∧ d !! "ticket_id" = Some (VStr "000042")
     ∧ d !! "correlation_id" = Some (VStr "cs-6f1d2c3e-0000-4000-8000-000000000001")
     ∧ d !! "processed_at" = Some (VStr "2026-11-04T09:00:01"))
  ∧ (∃ d tbl',
       orchestrator.process_customer_message offline 2 []
         "Money was debited but ATM did not dispense cash." (Some "TestUser")
       = (Returns d, tbl')
       ∧ dom d = orchestrator_fields).
Proof.
  destruct (run_support_graph_result offline 2 []
              "Money was debited but ATM did not dispense cash." (Some "TestUser") 0)
    as [(d & tbl' & reply & tid & h & p & Hrun & _) Horch].
  - lia.
  - reflexivity.
  - split; [|exact Horch].
    exists d, tbl'. split; [exact Hrun|].
    assert (d = match (langgraph_impl.run_support_graph offline 2 []
                         "Money was debited but ATM did not dispense cash."
                         (Some "TestUser")).1 with
                | Returns x => x
                | _ => ∅
                end) as -> by (by rewrite Hrun).
    vm_compute. repeat split.
Defined.

(** C3 as stated fails for the orchestrator entry point: the record
    [process_customer_message] returns has neither a correlation_id nor a
    processed_at field. *)
Lemma process_customer_message_lacks_fields :
  ∃ d,
    (orchestrator.process_customer_message offline 1 [] "Can you help me?" None).1
    = Returns d
    ∧ d !! "reply" = Some (VStr query_agent.no_id_reply)
    ∧ d !! "correlation_id" = None
    ∧ d !! "processed_at" = None.
Proof.
  exists (orchestrator.result "Can you help me?" "QUERY" "QueryAgent"
            query_agent.no_id_reply VNone).
  split; [vm_compute; reflexivity|].
  vm_compute. repeat split.
Qed.

End Pipeline.

(* ===================================================================== *)
(** * The end-to-end scenarios, with the remote classifier out of reach   *)
(* ===================================================================== *)

Section Scenarios.

Example scenario_positive :
  classifier_agent.classify_message (remote offline)
    "Thank you, the app is really good!" true = "POSITIVE_FEEDBACK".
Proof. reflexivity. Qed.

Example scenario_negative :
  classifier_agent.classify_message (remote offline)
    "Money was debited but ATM did not dispense cash." true = "NEGATIVE_FEEDBACK".
Proof. reflexivity. Qed.

Example scenario_status :
  classifier_agent.classify_message (remote offline)
    "What is the status of my ticket 123456?" true = "QUERY"
  ∧ query_agent._extract_ticket_id "What is the status of my ticket 123456?"
    = Some "123456"
  ∧ query_agent.handle_query [] "What is the status of my ticket 123456?"
    = Returns (query_agent.result (query_agent.not_found_reply "123456")
                 (Some "123456") false).
Proof. repeat split; reflexivity. Qed.

Example scenario_no_digits :
  classifier_agent.classify_message (remote offline) "Can you help me?" true = "QUERY"
  ∧ query_agent._extract_ticket_id "Can you help me?" = None.
Proof. split; reflexivity. Qed.

(** A run of seven digits, or six digits glued to a letter or an
    underscore, is not a ticket id. *)
Example extraction_boundaries :
  query_agent._extract_ticket_id "ref 1234567" = None
  ∧ query_agent._extract_ticket_id "ref_123456" = None
  ∧ query_agent._extract_ticket_id "ref#123456." = Some "123456".
Proof. repeat split; reflexivity. Qed.

Example format_examples :
  format_06d 0 = "000000" ∧ format_06d 42 = "000042" ∧ format_06d 999999 = "999999".
Proof. repeat split; reflexivity. Qed.

End Scenarios.

(* ===================================================================== *)
(** * More on trimming and case                                           *)
(* ===================================================================== *)

Section Trimming.

Lemma append_cons c s t : String c s +:+ t = String c (s +:+ t).
Proof. reflexivity. Qed.

Lemma lower_append s t : lower (s +:+ t) = lower s +:+ lower t.
Proof.
  induction s as [|c s IH]; [done|].
  rewrite append_cons. cbn [lower]. by rewrite IH.
Qed.

Lemma isspace_lower_char c : isspace (lower_char c) = isspace c.
Proof. by destruct c as [[] [] [] [] [] [] [] []]. Qed.

Lemma question_mark_lower_char c :
  Ascii.eqb "?" (lower_char c) = Ascii.eqb "?" c.
Proof. by destruct c as [[] [] [] [] [] [] [] []]. Qed.

Lemma lstrip_lower s : lower (lstrip s) = lstrip (lower s).
Proof.
  induction s as [|c s IH]; [done|].
  cbn [lstrip lower]. rewrite isspace_lower_char.
  by destruct (isspace c).
Qed.

Lemma rstrip_lower s : lower (rstrip s) = rstrip (lower s).
Proof.
  induction s as [|c s IH]; [done|].
  cbn [rstrip lower]. rewrite <- IH, isspace_lower_char.
  destruct (rstrip s); [by destruct (isspace c)|done].
Qed.

Lemma strip_lower s : lower (strip s) = strip (lower s).
Proof. unfold strip. by rewrite rstrip_lower, lstrip_lower. Qed.

Lemma question_mark_lower s : str_in "?" (lower s) = str_in "?" s.
Proof.
  induction s as [|c s IH]; [done|].
  cbn [lower str_in startswith]. by rewrite IH, question_mark_lower_char.
Qed.

Lemma startswith_nonempty_nil k : truthy k = true → startswith k EmptyString = false.
Proof. by destruct k. Qed.

Lemma str_in_nil k : truthy k = true → str_in k EmptyString = false.
Proof. by destruct k. Qed.

Lemma str_in_lstrip_stable k s :
  nonspace_at (query_agent.head k) = true → str_in k (lstrip s) = str_in k s.
Proof.
  destruct k as [|a k]; [discriminate|]. simpl. intros Ha%negb_true_iff.
  induction s as [|c s IH]; [done|].
  cbn [lstrip]. destruct (isspace c) eqn:Ec; [|done].
  rewrite IH. cbn [str_in startswith].
  destruct (Ascii.eqb_spec a c) as [->|_]; [congruence|done].
Qed.

Lemma last_from_cons p c s : last_from p (String c s) = last_from (Some c) s.
Proof. reflexivity. Qed.

Lemma last_from_Some p c s : last_from (Some c) s = last_from p (String c s).
Proof. reflexivity. Qed.

Lemma startswith_rstrip_stable k s :
  nonspace_at (last_char k) = true → startswith k (rstrip s) = startswith k s.
Proof.
  unfold last_char. revert k.
  induction s as [|c s IH]; intros k Hk; [done|].
  destruct k as [|a k]; [discriminate|].
  cbn [rstrip].
  destruct k as [|b k].
  - simpl in Hk. apply negb_true_iff in Hk.
    destruct (rstrip s); [|done].
    destruct (isspace c) eqn:Ec; [|done]. simpl.
    destruct (Ascii.eqb_spec a c) as [->|_]; [congruence|done].
  - rewrite last_from_cons in Hk. specialize (IH (String b k) Hk).
    change (startswith (String a (String b k)) (String c s))
      with (Ascii.eqb a c && startswith (String b k) s).
    rewrite <- IH.
    destruct (rstrip s) eqn:Er; [|reflexivity].
    destruct (isspace c); simpl; by rewrite ?andb_false_r.
Qed.

Lemma str_in_rstrip_stable k s :
  nonspace_at (last_char k) = true → str_in k (rstrip s) = str_in k s.
Proof.
  intros Hk.
  assert (truthy k = true) as Hne by (by destruct k).
  induction s as [|c s IH]; [done|].
  cbn [str_in]. rewrite <- (startswith_rstrip_stable k (String c s) Hk).
  rewrite <- IH. cbn [rstrip].
  destruct (rstrip s) eqn:Er.
  - rewrite (str_in_nil k Hne), orb_false_r.
    destruct (isspace c); cbn [str_in];
      by rewrite ?(str_in_nil k Hne), ?(startswith_nonempty_nil k Hne), ?orb_false_r.
  - done.
Qed.

(** Trimming neither removes nor creates an occurrence of a keyword that
    has no whitespace at its ends. *)
Lemma str_in_strip_stable k s :
  trim_stable k = true → str_in k (strip s) = str_in k s.
Proof.
  unfold trim_stable, strip. intros [H1 H2]%andb_prop.
  by rewrite str_in_rstrip_stable, str_in_lstrip_stable.
Qed.

Lemma existsb_strip_stable l s :
  forallb trim_stable l = true →
  existsb (fun k => str_in k (strip s)) l = existsb (fun k => str_in k s) l.
Proof.
  induction l as [|k l IH]; [done|]. simpl.
  intros [Hk Hl]%andb_prop. by rewrite IH, str_in_strip_stable.
Qed.

Lemma startswith_append k t : startswith k (k +:+ t) = true.
Proof.
  induction k as [|c k IH]; [done|].
  rewrite append_cons. cbn [startswith]. by rewrite IH, Ascii.eqb_refl.
Qed.

Lemma str_in_append_r k s t : str_in k t = true → str_in k (s +:+ t) = true.
Proof.
  intros H. induction s as [|c s IH]; [done|].
  rewrite append_cons. cbn [str_in]. rewrite IH. apply orb_true_r.
Qed.

Lemma str_in_middle k s t : str_in k (s +:+ k +:+ t) = true.
Proof.
  apply str_in_append_r. destruct k as [|a k]; [by destruct t|].
  rewrite append_cons. cbn [str_in].
  by rewrite <- append_cons, startswith_append.
Qed.

End Trimming.

(* ===================================================================== *)
(** * More on the classifiers                                             *)
(* ===================================================================== *)

Section ClassifierMore.

Import classifier_agent.

(** X1.  The trimming step of [heuristic_classify] has no effect on the
    label: no cue word starts or ends with whitespace, so the label is
    the one the three tests give on the untrimmed message. *)
Theorem heuristic_classify_untrimmed (message : string) :
  heuristic_classify message = heuristic_untrimmed message.
Proof.
  unfold heuristic_classify, heuristic_untrimmed, _contains_any.
  rewrite (str_in_strip "?"%char message eq_refl).
  rewrite strip_lower.
  by rewrite !existsb_strip_stable.
Qed.

(** The same steps, for goals that mention [heuristic_classify]. *)
Ltac untrim :=
  unfold heuristic_classify, _contains_any;
  rewrite ?(str_in_strip "?"%char _ eq_refl), ?strip_lower;
  rewrite ?existsb_strip_stable by reflexivity.

(** X2.  The label ignores letter case: two messages with the same
    lower-case form get the same label. *)
Theorem heuristic_classify_case_insensitive (m1 m2 : string) :
  lower m1 = lower m2 → heuristic_classify m1 = heuristic_classify m2.
Proof.
  intros H. untrim.
  rewrite <- (question_mark_lower m1), <- (question_mark_lower m2).
  by rewrite H.
Qed.

Lemma heuristic_classify_case_insensitive_witness :
  heuristic_classify "  WHERE IS MY CARD" = heuristic_classify "  where is my Card".
Proof.
  apply heuristic_classify_case_insensitive. reflexivity.
Defined.

(** X3.  A message in which a question cue word occurs, in any letter
    case and anywhere in the text, is classified QUERY, whatever negative
    or positive cue words it also contains. *)
Theorem question_word_takes_precedence (k w before after : string) :
  In k question_words → lower w = k →
  heuristic_classify (before +:+ w +:+ after) = QUERY.
Proof.
  intros Hk Hw. untrim.
  assert (existsb (fun k => str_in k (lower (before +:+ w +:+ after))) question_words
          = true) as ->.
  { apply existsb_exists. exists k. split; [done|].
    rewrite !lower_append, Hw. apply str_in_middle. }
  by rewrite orb_true_r.
Qed.

Lemma question_word_takes_precedence_witness :
  heuristic_classify ("I am angry, my " +:+ "Ticket" +:+ " is still open. Thanks") = QUERY.
Proof.
  apply (question_word_takes_precedence "ticket").
  - simpl. tauto.
  - reflexivity.
Defined.

(** X4.  Among the sentiment cues the negative ones come first: a message
    with no question mark and no question word that contains a negative
    cue word is NEGATIVE_FEEDBACK even when it also thanks. *)
Theorem negative_cue_beats_positive (k w before after : string) :
  In k negative_words → lower w = k →
  str_in "?" (before +:+ w +:+ after) = false →
  (∀ q, In q question_words → str_in q (lower (before +:+ w +:+ after)) = false) →
  heuristic_classify (before +:+ w +:+ after) = NEGATIVE_FEEDBACK.
Proof.
  intros Hk Hw Hq Hnone. untrim. rewrite Hq.
  assert (existsb (fun k => str_in k (lower (before +:+ w +:+ after))) question_words
          = false) as ->.
  { apply not_true_is_false. intros (q & Hin & Hs)%existsb_exists.
    rewrite (Hnone q Hin) in Hs. discriminate. }
  assert (existsb (fun k => str_in k (lower (before +:+ w +:+ after))) negative_words
          = true) as ->.
  { apply existsb_exists. exists k. split; [done|].
    rewrite !lower_append, Hw. apply str_in_middle. }
  done.
Qed.

Lemma negative_cue_beats_positive_witness :
  heuristic_classify ("Thanks for resolving my " +:+ "issue" +:+ " quickly!")
  = NEGATIVE_FEEDBACK.
Proof.
  apply (negative_cue_beats_positive "issue").
  - simpl. tauto.
  - reflexivity.
  - reflexivity.
  - intros q Hq. simpl in Hq.
    repeat destruct Hq as [<-|Hq]; try reflexivity. destruct Hq.
Defined.

Lemma attempts_failed e message n :
  failed (chat_completion e message n) = true →
  failed (chat_completion e message (S n)) = true →
  attempts e message n 2 = None.
Proof.
  intros H1 H2. cbn [attempts].
  destruct (chat_completion e message n) as [|[r1|]];
    destruct (chat_completion e message (S n)) as [|[r2|]]; simpl in *;
    try apply negb_true_iff in H1; try apply negb_true_iff in H2;
    rewrite ?H1, ?H2; done.
Qed.

(** X5.  When the remote classifier cannot be asked (package or key
    missing) or both attempts fail (exception, missing or blank content),
    [classify_message] returns the label of the heuristic. *)
Theorem classify_message_falls_back (e : llm) (message : string) :
  unconfigured e = true
  ∨ (failed (chat_completion e (strip message) 1) = true
     ∧ failed (chat_completion e (strip message) 2) = true) →
  classify_message e message true = heuristic_classify message.
Proof.
  intros H.
  assert (_call_openai_chat e (strip message) = None) as Hcall.
  { unfold _call_openai_chat. destruct H as [H|[H1 H2]].
    - unfold unconfigured in H.
      destruct (openai_importable e); simpl in *; [|done].
      destruct (OPENAI_API_KEY e) as [key|]; [|done]. by rewrite H.
    - destruct (negb (openai_importable e)); [done|].
      destruct (OPENAI_API_KEY e) as [key|]; [|done].
      destruct (negb (truthy key)); [done|].
      by apply attempts_failed. }
  rewrite <- (classify_message_heuristic_only e message).
  unfold classify_message. rewrite Hcall.
  by destruct (negb (truthy (strip message))).
Qed.

Lemma classify_message_falls_back_witness :
  classify_message
    {| openai_importable := true; OPENAI_API_KEY := Some "sk-test";
       chat_completion := fun _ n =>
         if Nat.eqb n 1 then AttemptRaised else AttemptResponse (Some "   ") |}
    "Thanks for the quick help" true
  = heuristic_classify "Thanks for the quick help".
Proof.
  apply classify_message_falls_back. right. split; reflexivity.
Defined.

Lemma upper_nil_inv s : upper s = EmptyString → s = EmptyString.
Proof.
  destruct s as [|c s]; [done|]. cbn [upper]. unfold upper_char.
  repeat match goal with |- context [if ?b then _ else _] => destruct b end;
    discriminate.
Qed.

(** X6.  When the first attempt of a configured remote classifier answers
    with one of the three labels, in any letter case and with any
    whitespace around it, a message that is not blank gets that label,
    whatever the heuristic would say. *)
Theorem classify_message_remote_label (e : llm) (message key r lbl : string) :
  strip message ≠ EmptyString →
  openai_importable e = true →
  OPENAI_API_KEY e = Some key → key ≠ EmptyString →
  chat_completion e (strip message) 1 = AttemptResponse (Some r) →
  upper (strip r) = lbl → is_label lbl →
  classify_message e message true = lbl.
Proof.
  intros Hm Himp Hkey Hk Hatt Hup Hl.
  assert (truthy lbl = true) as Hlt by (by destruct Hl as [-> | [-> | ->]]).
  assert (truthy (strip r) = true) as Hr.
  { destruct (strip r) eqn:E; [|done]. simpl in Hup. subst lbl. done. }
  assert (_call_openai_chat e (strip message) = Some (strip r)) as Hcall.
  { unfold _call_openai_chat. rewrite Himp, Hkey. simpl.
    destruct key; [done|]. simpl. by rewrite Hatt, Hr. }
  assert (_normalize_label (strip r) = Some lbl) as Hn.
  { unfold _normalize_label. rewrite Hr, strip_idem, Hup. simpl negb. cbv iota.
    by destruct Hl as [-> | [-> | ->]]. }
  unfold classify_message. rewrite Hcall, Hr, Hn, Hlt.
  destruct (strip message); done.
Qed.

Lemma classify_message_remote_label_witness :
  classify_message
    {| openai_importable := true; OPENAI_API_KEY := Some "sk-test";
       chat_completion := fun _ _ => AttemptResponse (Some " negative_feedback  ") |}
    "Thanks, all good" true
  = "NEGATIVE_FEEDBACK".
Proof.
  eapply (classify_message_remote_label _ _ "sk-test" " negative_feedback  ");
    try reflexivity; try discriminate.
  right. by left.
Defined.

(** X7.  [_call_openai_chat] makes at most two attempts and asks for the
    second only after the first has failed: two remote classifiers that
    are configured alike and agree on the first attempt, and on the second
    when the first fails, yield the same text; and a text it yields is
    not empty and has no whitespace at its ends. *)
Theorem call_openai_chat_two_attempts (e e' : llm) (message : string) :
  openai_importable e = openai_importable e' →
  OPENAI_API_KEY e = OPENAI_API_KEY e' →
  chat_completion e message 1 = chat_completion e' message 1 →
  (failed (chat_completion e message 1) = true →
   chat_completion e message 2 = chat_completion e' message 2) →
  _call_openai_chat e message = _call_openai_chat e' message
  ∧ ∀ raw, _call_openai_chat e message = Some raw →
           raw ≠ EmptyString ∧ strip raw = raw.
Proof.
  intros Himp Hkey H1 H2. split.
  - unfold _call_openai_chat. rewrite <- Himp, <- Hkey.
    destruct (negb (openai_importable e)); [done|].
    destruct (OPENAI_API_KEY e) as [key|]; [|done].
    destruct (negb (truthy key)); [done|].
    cbn [attempts]. rewrite <- H1.
    destruct (chat_completion e message 1) as [|[r1|]]; simpl in H2.
    + by rewrite <- H2.
    + destruct (truthy (strip r1)); [done|]. by rewrite <- H2.
    + by rewrite <- H2.
  - intros raw. unfold _call_openai_chat.
    destruct (negb (openai_importable e)); [discriminate|].
    destruct (OPENAI_API_KEY e) as [key|]; [|discriminate].
    destruct (negb (truthy key)); [discriminate|].
    cbn [attempts].
    assert (∀ r, truthy (strip r) = true →
                 strip r ≠ EmptyString ∧ strip (strip r) = strip r) as Hok.
    { intros r Hr. split; [by destruct (strip r)|apply strip_idem]. }
    destruct (chat_completion e message 1) as [|[r1|]];
      destruct (chat_completion e message 2) as [|[r2|]]; simpl;
      repeat match goal with
             | |- context [truthy (strip ?r)] =>
                 let E := fresh in destruct (truthy (strip r)) eqn:E
             end;
      intros [= <-] || discriminate; by apply Hok.
Qed.

Lemma call_openai_chat_two_attempts_witness :
  _call_openai_chat
    {| openai_importable := true; OPENAI_API_KEY := Some "sk-test";
       chat_completion := fun _ n =>
         if Nat.eqb n 1 then AttemptResponse (Some " QUERY ") else AttemptRaised |}
    "where is my card"
  = _call_openai_chat
      {| openai_importable := true; OPENAI_API_KEY := Some "sk-test";
         chat_completion := fun _ _ => AttemptResponse (Some " QUERY ") |}
      "where is my card".
Proof.
  apply call_openai_chat_two_attempts; try reflexivity.
  simpl. discriminate.
Defined.

End ClassifierMore.

(* ===================================================================== *)
(** * More on the ticket store                                            *)
(* ===================================================================== *)

Section StoreMore.

Import db_utils.

Lemma find_app_other (tbl : table) id r :
  ticket_id r ≠ id → find (has_id id) (tbl ++ [r]) = find (has_id id) tbl.
Proof.
  intros Hne. induction tbl as [|r0 tbl IH]; simpl.
  - by rewrite (proj2 (has_id_false id r) Hne).
  - by destruct (has_id id r0).
Qed.

(** X8.  A ticket created under an id the store does not hold is read
    back by [get_ticket] with the given message and customer name, status
    "Open", and both timestamps equal to the time of creation. *)
Theorem create_then_get (now : string) (tbl : table) (id message : string)
    (customer_name correlation_id : option string) :
  get_ticket tbl id = None →
  ∃ tbl' d,
    create_ticket now tbl id message customer_name correlation_id = (Returns tt, tbl')
    ∧ get_ticket tbl' id = Some d
    ∧ d !! "ticket_id" = Some (VStr id)
    ∧ d !! "customer_name" = Some (of_optional customer_name)
    ∧ d !! "message" = Some (VStr message)
    ∧ d !! "status" = Some (VStr "Open")
    ∧ d !! "created_at" = Some (VStr now)
    ∧ d !! "updated_at" = Some (VStr now).
Proof.
  intros Hnone. rewrite (create_ticket_fresh _ _ _ _ _ _ Hnone).
  eexists _, _. split; [reflexivity|].
  unfold get_ticket. rewrite find_app_fresh; [|done..].
  split; [reflexivity|]. by vm_compute.
Qed.

Lemma create_then_get_witness :
  ∃ tbl' d,
    create_ticket "2026-11-04T09:00:00" [] "000042" "card blocked" (Some "Ana") None
    = (Returns tt, tbl')
    ∧ get_ticket tbl' "000042" = Some d
    ∧ d !! "ticket_id" = Some (VStr "000042")
    ∧ d !! "customer_name" = Some (of_optional (Some "Ana"))
    ∧ d !! "message" = Some (VStr "card blocked")
    ∧ d !! "status" = Some (VStr "Open")
    ∧ d !! "created_at" = Some (VStr "2026-11-04T09:00:00")
    ∧ d !! "updated_at" = Some (VStr "2026-11-04T09:00:00").
Proof.
  apply create_then_get. reflexivity.
Defined.

(** X9.  [create_ticket] and [update_ticket_status] touch one ticket
    only: whatever their outcome, every other ticket id reads as before;
    and an update neither adds nor removes a row. *)
Theorem store_operations_frame (now : string) (tbl : table)
    (id id' message new_status : string)
    (customer_name correlation_id : option string) :
  id' ≠ id →
  get_ticket (create_ticket now tbl id message customer_name correlation_id).2 id'
  = get_ticket tbl id'
  ∧ get_ticket (update_ticket_status now tbl id new_status).2 id' = get_ticket tbl id'
  ∧ ids (update_ticket_status now tbl id new_status).2 = ids tbl.
Proof.
  intros Hne. split; [|split].
  - unfold create_ticket. destruct (existsb (has_id id) tbl); [done|].
    simpl. unfold get_ticket. by rewrite find_app_other.
  - unfold get_ticket. rewrite find_update.
    destruct (find (has_id id') tbl) as [r|] eqn:Hf; [|done]. simpl.
    apply find_some in Hf as [_ Hid%has_id_true].
    assert (has_id id r = false) as -> by (apply has_id_false; congruence).
    done.
  - apply ids_update.
Qed.

Lemma store_operations_frame_witness :
  get_ticket (create_ticket "2026-11-04T09:00:00"
                (create_ticket "2026-11-04T08:00:00" [] "000007" "first" None None).2
                "000042" "second" None None).2 "000007"
  = get_ticket (create_ticket "2026-11-04T08:00:00" [] "000007" "first" None None).2
      "000007"
  ∧ get_ticket (update_ticket_status "2026-11-04T09:00:00"
                  (create_ticket "2026-11-04T08:00:00" [] "000007" "first" None None).2
                  "000042" "Closed").2 "000007"
    = get_ticket (create_ticket "2026-11-04T08:00:00" [] "000007" "first" None None).2
        "000007"
  ∧ ids (update_ticket_status "2026-11-04T09:00:00"
           (create_ticket "2026-11-04T08:00:00" [] "000007" "first" None None).2
           "000042" "Closed").2
    = ids (create_ticket "2026-11-04T08:00:00" [] "000007" "first" None None).2.
Proof.
  apply store_operations_frame. discriminate.
Defined.

(** X10.  Updates compose as writes do: a second update of the same
    ticket overrides the first, status and time; updates of two different
    tickets can be done in either order. *)
Theorem updates_compose (now1 now2 : string) (tbl : table) (id1 id2 s1 s2 : string) :
  (update_ticket_status now2 (update_ticket_status now1 tbl id1 s1).2 id1 s2).2
  = (update_ticket_status now2 tbl id1 s2).2
  ∧ (id1 ≠ id2 →
     (update_ticket_status now2 (update_ticket_status now1 tbl id1 s1).2 id2 s2).2
     = (update_ticket_status now1 (update_ticket_status now2 tbl id2 s2).2 id1 s1).2).
Proof.
  unfold update_ticket_status. simpl. split.
  - rewrite map_map. apply map_ext. intros r.
    destruct (has_id id1 r) eqn:E; [|by rewrite E].
    unfold has_id in *. simpl. by rewrite E.
  - intros Hne. rewrite !map_map. apply map_ext. intros r.
    destruct (has_id id1 r) eqn:E1; destruct (has_id id2 r) eqn:E2;
      unfold has_id in *; simpl; rewrite ?E1, ?E2; try done.
    apply String.eqb_eq in E1, E2. congruence.
Qed.

Lemma updates_compose_witness :
  (update_ticket_status "2026-11-04T11:00:00"
     (update_ticket_status "2026-11-04T10:00:00"
        (create_ticket "2026-11-04T08:00:00"
           (create_ticket "2026-11-04T07:00:00" [] "000007" "first" None None).2
           "000042" "second" None None).2
        "000007" "In Progress").2
     "000042" "Closed").2
  = (update_ticket_status "2026-11-04T10:00:00"
       (update_ticket_status "2026-11-04T11:00:00"
          (create_ticket "2026-11-04T08:00:00"
             (create_ticket "2026-11-04T07:00:00" [] "000007" "first" None None).2
             "000042" "second" None None).2
          "000042" "Closed").2
       "000007" "In Progress").2.
Proof.
  apply updates_compose. discriminate.
Defined.

End StoreMore.

(* ===================================================================== *)
(** * More on the feedback handler                                        *)
(* ===================================================================== *)

Section FeedbackMore.

Import db_utils feedback_agent.

(** X11.  The id the generator returns is the first draw the store does
    not hold: every earlier draw of the call collided. *)
Theorem generate_first_free (fuel : nat) (randint : nat → Z) (draw : nat)
    (tbl : table) (id : string) :
  _generate_unique_ticket_id fuel randint draw tbl = Returns id →
  ∃ j, j < fuel
       ∧ id = format_06d (randint (draw + j))
       ∧ get_ticket tbl id = None
       ∧ ∀ i, i < j → get_ticket tbl (format_06d (randint (draw + i))) ≠ None.
Proof.
  revert draw. induction fuel as [|fuel IH]; intros draw; simpl; [discriminate|].
  destruct (get_ticket tbl (format_06d (randint draw))) eqn:E.
  - intros (j & Hj & -> & Hfree & Hbefore)%IH.
    exists (S j). split; [lia|].
    replace (draw + S j) with (S draw + j) by lia.
    split; [done|]. split; [done|].
    intros [|i] Hi.
    + rewrite Nat.add_0_r. congruence.
    + replace (draw + S i) with (S draw + i) by lia. apply Hbefore. lia.
  - intros [= <-]. exists 0. rewrite Nat.add_0_r.
    split; [lia|]. split; [done|]. split; [done|]. intros i Hi. lia.
Qed.

Lemma generate_first_free_witness :
  ∃ j, j < 3
       ∧ "000007" = format_06d ((λ i, if Nat.eqb i 0 then 42%Z else 7%Z) (0 + j))
       ∧ get_ticket
           (create_ticket "2026-11-04T08:00:00" [] "000042" "first" None None).2
           "000007" = None
       ∧ ∀ i, i < j →
              get_ticket
                (create_ticket "2026-11-04T08:00:00" [] "000042" "first" None None).2
                (format_06d ((λ i, if Nat.eqb i 0 then 42%Z else 7%Z) (0 + i))) ≠ None.
Proof.
  apply generate_first_free. reflexivity.
Defined.

(** X12.  When every candidate drawn is held by the store the loop does
    not end: whatever the number of turns allowed, it is still running. *)
Theorem generate_exhausted (fuel : nat) (randint : nat → Z) (draw : nat) (tbl : table) :
  (∀ i, get_ticket tbl (format_06d (randint i)) ≠ None) →
  _generate_unique_ticket_id fuel randint draw tbl = OutOfFuel.
Proof.
  intros Hall. revert draw. induction fuel as [|fuel IH]; intros draw; simpl; [done|].
  destruct (get_ticket tbl (format_06d (randint draw))) eqn:E; [apply IH|].
  by destruct (Hall draw).
Qed.

Lemma generate_exhausted_witness :
  _generate_unique_ticket_id 50 (λ _, 42%Z) 0
    (create_ticket "2026-11-04T08:00:00" [] "000042" "first" None None).2
  = OutOfFuel.
Proof.
  apply generate_exhausted. intros _. discriminate.
Defined.

(** X13.  The feedback handler raises nothing, whatever the sentiment,
    the store and the draws: the insertion that follows the generator's
    check cannot hit a held key.  Unless the sentiment is
    NEGATIVE_FEEDBACK it returns, without a ticket id, and leaves the
    store as it was. *)
Theorem handle_feedback_never_raises (fuel : nat) (randint : nat → Z) (now : string)
    (tbl : table) (message sentiment : string)
    (customer_name correlation_id : option string) :
  ¬ signals_failure
      (handle_feedback fuel randint now tbl message sentiment customer_name
         correlation_id).1
  ∧ (sentiment ≠ classifier_agent.NEGATIVE_FEEDBACK →
     ∃ res,
       handle_feedback fuel randint now tbl message sentiment customer_name
         correlation_id = (Returns res, tbl)
       ∧ res !! "ticket_id" = Some VNone).
Proof.
  unfold handle_feedback. split.
  - intros [e He]. revert He.
    destruct (String.eqb sentiment _); [discriminate|].
    destruct (String.eqb sentiment _); [|discriminate].
    destruct (_generate_unique_ticket_id fuel randint 0 tbl) as [id| |] eqn:Hgen.
    + rewrite (create_ticket_fresh _ _ _ _ _ _ (generate_fresh _ _ _ _ _ Hgen)).
      discriminate.
    + by destruct (generate_never_raises fuel randint 0 tbl e0).
    + discriminate.
  - intros Hneg%String.eqb_neq. rewrite Hneg.
    destruct (String.eqb sentiment classifier_agent.POSITIVE_FEEDBACK);
      eexists; (split; [reflexivity|done]).
Qed.

Lemma handle_feedback_never_raises_witness :
  ∃ res,
    handle_feedback 1 (λ _, 7%Z) "2026-11-04T09:00:00" [] "Great service"
      "POSITIVE_FEEDBACK" None None = (Returns res, [])
    ∧ res !! "ticket_id" = Some VNone.
Proof.
  apply handle_feedback_never_raises. discriminate.
Defined.

End FeedbackMore.

(* ===================================================================== *)
(** * More on the query handler                                           *)
(* ===================================================================== *)

Section QueryMore.

Import db_utils query_agent.

Lemma append_nil_r s : s +:+ EmptyString = s.
Proof. induction s as [|c s IH]; [done|]. rewrite append_cons. by rewrite IH. Qed.

Lemma isdecimal_isword c : isdecimal c = true → isword c = true.
Proof. unfold isword, isdecimal. by intros ->. Qed.

Lemma last_from_digits prev d :
  str_forall isdecimal d = true → truthy d = true → is_word_at (last_from prev d) = true.
Proof.
  revert prev. induction d as [|c d IH]; intros prev Hd Hne; [done|].
  simpl in Hd. apply andb_prop in Hd as [Hc Hd].
  rewrite last_from_cons. destruct d as [|c' d].
  - simpl. by apply isdecimal_isword.
  - by apply IH.
Qed.

Lemma head_digits d t :
  str_forall isdecimal d = true → truthy d = true → is_word_at (head (d +:+ t)) = true.
Proof.
  destruct d as [|c d]; [done|]. simpl. intros [Hc _]%andb_prop _.
  by apply isdecimal_isword.
Qed.

Lemma six_digits_truthy d : six_digits d → truthy d = true.
Proof. intros [Hlen _]. by destruct d. Qed.

(** A character of the message that lies before the end of [before]
    belongs to [before]. *)
Lemma char_in_prefix (P : ascii → bool) before rest before' c rest' :
  before +:+ rest = before' +:+ String c rest' →
  String.length before' < String.length before →
  str_forall P before = true → P c = true.
Proof.
  revert before'. induction before as [|p before IH]; intros before' Heq Hlen Hall.
  - simpl in Hlen. lia.
  - simpl in Hall. apply andb_prop in Hall as [Hp Hall].
    destruct before' as [|q before'].
    + rewrite append_cons in Heq. simpl in Heq. by injection Heq as <- _.
    + rewrite !append_cons in Heq. injection Heq as _ Heq.
      simpl in Hlen. apply (IH before'); [done|lia|done].
Qed.

(** X14.  What [_extract_ticket_id] returns is a run of six decimal
    digits of the message with a word boundary on either side, and no
    such run starts further left. *)
Theorem extract_sound (message d : string) :
  _extract_ticket_id message = Some d →
  six_digits d
  ∧ ∃ before after,
      six_digit_run message before d after
      ∧ ∀ before' d' after', six_digit_run message before' d' after' →
                             String.length before ≤ String.length before'.
Proof.
  unfold _extract_ticket_id, TICKET_PATTERN_search.
  destruct (search_from None message) as [g|] eqn:E; [|discriminate].
  intros [= ->]. apply search_from_Some in E as (before & after & Hdec & Hrun & Hleft).
  split; [by destruct Hrun|].
  exists before, after. split; [done|].
  intros before' d' after' [Hdec' Hrun']. by eapply Hleft.
Qed.

Lemma extract_sound_witness :
  six_digits "654321"
  ∧ ∃ before after,
      six_digit_run "ref 1234567 then 654321." before "654321" after
      ∧ ∀ before' d' after',
          six_digit_run "ref 1234567 then 654321." before' d' after' →
          String.length before ≤ String.length before'.
Proof.
  apply extract_sound. reflexivity.
Defined.

(** An id that stands after a text without digits, with a non-word
    character (or nothing) on either side, is the id extracted. *)
Lemma extract_delimited (before id after : string) :
  six_digits id → no_digit before = true →
  is_word_at (last_char before) = false → is_word_at (head after) = false →
  _extract_ticket_id (before +:+ id +:+ after) = Some id.
Proof.
  intros Hsix Hnod Hb Ha.
  pose proof (six_digits_truthy id Hsix) as Hne. destruct Hsix as [Hlen Hd].
  apply (extract_leftmost _ before id after).
  - split; [done|]. split; [done|]. unfold word_boundary. split.
    + fold (last_char before). by rewrite Hb, head_digits.
    + by rewrite last_from_digits, Ha.
  - intros before' d' after' [Hdec [[Hlen' Hd'] _]].
    destruct (Nat.le_gt_cases (String.length before) (String.length before'))
      as [?|Hlt]; [done|exfalso].
    destruct d' as [|c d']; [discriminate|].
    rewrite append_cons in Hdec.
    pose proof (char_in_prefix _ _ _ _ _ _ Hdec Hlt Hnod) as Hc.
    simpl in Hd'. apply andb_prop in Hd' as [Hc' _].
    cbv beta in Hc. rewrite Hc' in Hc. discriminate.
Qed.

Lemma extract_six_digits message d :
  _extract_ticket_id message = Some d → six_digits d.
Proof.
  unfold _extract_ticket_id, TICKET_PATTERN_search.
  destruct (search_from None message) as [g|] eqn:E; [|discriminate].
  intros [= ->]. by apply search_from_Some in E as (_ & _ & _ & [? _] & _).
Qed.

Lemma usable_extract message :
  usable (_extract_ticket_id message) = _extract_ticket_id message.
Proof.
  destruct (_extract_ticket_id message) as [d|] eqn:E; [|done].
  apply extract_six_digits in E. simpl.
  by rewrite (six_digits_truthy d E).
Qed.

(** X15.  Six digits that stand in the message after a text without
    digits, with a non-word character (or nothing) on either side, are the
    ticket id the query handler looks up and returns, whatever follows
    them, further digits included. *)
Theorem query_uses_delimited_id (tbl : table) (before id after : string) :
  six_digits id → no_digit before = true →
  is_word_at (last_char before) = false → is_word_at (head after) = false →
  _extract_ticket_id (before +:+ id +:+ after) = Some id
  ∧ ∃ res, handle_query tbl (before +:+ id +:+ after) = Returns res
           ∧ res !! "ticket_id" = Some (VStr id)
           ∧ res !! "found" = Some (VBool (bool_decide (is_Some (get_ticket tbl id)))).
Proof.
  intros Hsix Hnod Hb Ha.
  pose proof (extract_delimited before id after Hsix Hnod Hb Ha) as He.
  split; [done|]. unfold handle_query. rewrite usable_extract, He.
  unfold get_ticket. destruct (find (has_id id) tbl) as [r|].
  - rewrite selected_columns_status. eexists. split; [reflexivity|]. by vm_compute.
  - eexists. split; [reflexivity|]. by vm_compute.
Qed.

Lemma query_uses_delimited_id_witness :
  _extract_ticket_id ("What is the status of my ticket " +:+ "000042" +:+ "? Not 123456.")
  = Some "000042"
  ∧ ∃ res,
      handle_query [] ("What is the status of my ticket " +:+ "000042" +:+ "? Not 123456.")
      = Returns res
      ∧ res !! "ticket_id" = Some (VStr "000042")
      ∧ res !! "found" = Some (VBool (bool_decide (is_Some (get_ticket [] "000042")))).
Proof.
  apply query_uses_delimited_id; [split|..]; reflexivity.
Defined.

(** X16.  A message made of decimal digits only yields an id exactly when
    it has six of them: a longer run of digits is never cut down to an
    id. *)
Theorem extract_all_digits (message : string) :
  str_forall isdecimal message = true →
  _extract_ticket_id message
  = if Nat.eqb (String.length message) 6 then Some message else None.
Proof.
  intros Hd. destruct (Nat.eqb_spec (String.length message) 6) as [Hlen|Hlen].
  - rewrite <- (append_nil_r message) at 1.
    change (message +:+ EmptyString) with (EmptyString +:+ message +:+ EmptyString).
    by apply extract_delimited.
  - apply extract_none. intros before d after [Hdec [[Hlen' Hd'] [Hb Ha]]].
    assert (truthy d = true) as Hne by (by destruct d).
    rewrite Hdec, !str_forall_append in Hd.
    apply andb_prop in Hd as [Hdb [_ Hda]%andb_prop].
    assert (before = EmptyString) as ->.
    { destruct before as [|c before]; [done|exfalso].
      unfold word_boundary in Hb.
      rewrite (last_from_digits None (String c before)), head_digits in Hb; done. }
    assert (after = EmptyString) as ->.
    { destruct after as [|c after]; [done|exfalso].
      unfold word_boundary in Ha. simpl in Hda. apply andb_prop in Hda as [Hc _].
      rewrite last_from_digits in Ha by done.
      simpl in Ha. rewrite (isdecimal_isword c Hc) in Ha. done. }
    change (EmptyString +:+ d +:+ EmptyString) with (d +:+ EmptyString) in Hdec.
    rewrite append_nil_r in Hdec. congruence.
Qed.

Lemma extract_all_digits_witness :
  _extract_ticket_id "1234567"
  = if Nat.eqb (String.length "1234567") 6 then Some "1234567" else None.
Proof.
  apply extract_all_digits. reflexivity.
Defined.

Lemma query_result_dom reply ticket_id found :
  dom (query_agent.result reply ticket_id found) = query_fields.
Proof.
  unfold query_agent.result, query_fields.
  rewrite !dom_insert_L, dom_empty_L. set_solver.
Qed.

(** X17.  [handle_query] always returns, with the three fields reply,
    ticket_id and found: ticket_id is the extracted id (none when the
    message has no id), and found holds exactly when the store holds a
    ticket under that id; reading the status of the ticket cannot fail. *)
Theorem handle_query_total (tbl : table) (message : string) :
  ∃ res,
    handle_query tbl message = Returns res
    ∧ dom res = query_fields
    ∧ res !! "ticket_id" = Some (of_optional (_extract_ticket_id message))
    ∧ res !! "found"
      = Some (VBool match _extract_ticket_id message with
                    | Some id => bool_decide (is_Some (get_ticket tbl id))
                    | None => false
                    end).
Proof.
  unfold handle_query. rewrite usable_extract.
  destruct (_extract_ticket_id message) as [id|].
  - unfold get_ticket. destruct (find (has_id id) tbl) as [r|].
    + rewrite selected_columns_status. eexists. split; [reflexivity|].
      split; [apply query_result_dom|]. by vm_compute.
    + eexists. split; [reflexivity|].
      split; [apply query_result_dom|]. by vm_compute.
  - eexists. split; [reflexivity|].
    split; [apply query_result_dom|]. by vm_compute.
Qed.

(** X18.  A ticket opened by the feedback handler is found by the query
    handler: asked about the returned id (the id standing after a text
    without digits, between non-word characters), [handle_query] on the
    new store reports the ticket as found, with status "Open". *)
Theorem feedback_then_query (fuel : nat) (randint : nat → Z) (now : string)
    (tbl : table) (message before after : string)
    (customer_name correlation_id : option string) (k : nat) :
  (∀ i, (0 ≤ randint i ≤ 999999)%Z) →
  k < fuel →
  get_ticket tbl (format_06d (randint k)) = None →
  no_digit before = true →
  is_word_at (last_char before) = false → is_word_at (head after) = false →
  ∃ id res tbl',
    feedback_agent.handle_feedback fuel randint now tbl message
      classifier_agent.NEGATIVE_FEEDBACK customer_name correlation_id
    = (Returns res, tbl')
    ∧ res !! "ticket_id" = Some (VStr id)
    ∧ handle_query tbl' (before +:+ id +:+ after)
      = Returns (result (status_reply id "Open") (Some id) true).
Proof.
  intros Hrange Hk Hfree Hnod Hb Ha.
  destruct (handle_feedback_negative fuel randint now tbl message customer_name
              correlation_id k Hk Hfree) as (id & Hgen & ->).
  destruct (generate_returns _ _ _ _ _ Hrange Hgen) as [Hsix Hnone].
  eexists id, _, _. split; [reflexivity|]. split; [done|].
  unfold handle_query.
  rewrite usable_extract, (extract_delimited before id after Hsix Hnod Hb Ha).
  unfold get_ticket. rewrite find_app_fresh; [|done..].
  by rewrite selected_columns_status.
Qed.

Lemma feedback_then_query_witness :
  ∃ id res tbl',
    feedback_agent.handle_feedback 2 (λ _, 42%Z) "2026-11-04T09:00:00" []
      "My card was charged twice, very disappointed."
      classifier_agent.NEGATIVE_FEEDBACK (Some "Ana") None
    = (Returns res, tbl')
    ∧ res !! "ticket_id" = Some (VStr id)
    ∧ handle_query tbl' ("What is the status of my ticket " +:+ id +:+ "?")
      = Returns (result (status_reply id "Open") (Some id) true).
Proof.
  apply (feedback_then_query 2 _ _ _ _ _ _ _ _ 0); try reflexivity.
  - intros _. lia.
  - lia.
Defined.

(** X19.  After [update_ticket_status] on a ticket the store holds, the
    query handler asked about that id answers with the new status. *)
Theorem update_then_query (now : string) (tbl : table)
    (id new_status before after : string) :
  six_digits id → is_Some (get_ticket tbl id) →
  no_digit before = true →
  is_word_at (last_char before) = false → is_word_at (head after) = false →
  handle_query (update_ticket_status now tbl id new_status).2 (before +:+ id +:+ after)
  = Returns (result (status_reply id new_status) (Some id) true).
Proof.
  intros Hsix [d Hget] Hnod Hb Ha. unfold handle_query.
  rewrite usable_extract, (extract_delimited before id after Hsix Hnod Hb Ha).
  unfold get_ticket in *. rewrite find_update.
  destruct (find (has_id id) tbl) as [r|] eqn:Hf; [|discriminate]. simpl.
  apply find_some in Hf as [_ ->].
  by rewrite selected_columns_status.
Qed.

Lemma update_then_query_witness :
  handle_query
    (update_ticket_status "2026-11-04T10:00:00"
       (create_ticket "2026-11-04T09:00:00" [] "000042" "card blocked" None None).2
       "000042" "Resolved").2
    ("ticket #" +:+ "000042" +:+ " please")
  = Returns (result (status_reply "000042" "Resolved") (Some "000042") true).
Proof.
  apply update_then_query; try reflexivity.
  - split; reflexivity.
  - by eexists.
Defined.

End QueryMore.

(* ===================================================================== *)
(** * More on the entry points                                            *)
(* ===================================================================== *)

Section PipelineMore.

Import db_utils.

Lemma handle_feedback_negative_cases fuel randint now tbl message cn cid :
  feedback_agent.handle_feedback fuel randint now tbl message
    classifier_agent.NEGATIVE_FEEDBACK cn cid
  = match feedback_agent._generate_unique_ticket_id fuel randint 0 tbl with
    | Returns id =>
        (Returns (feedback_agent.result (feedback_agent.apology_reply cn id) (Some id)
                    classifier_agent.NEGATIVE_FEEDBACK),
         tbl ++ [new_row now id message cn cid])
    | Raises e => (Raises e, tbl)
    | OutOfFuel => (OutOfFuel, tbl)
    end.
Proof.
  unfold feedback_agent.handle_feedback. simpl String.eqb. cbv iota.
  destruct (feedback_agent._generate_unique_ticket_id fuel randint 0 tbl)
    as [id| |] eqn:Hgen; [|done..].
  by rewrite (create_ticket_fresh _ _ _ _ _ _ (generate_fresh _ _ _ _ _ Hgen)).
Qed.

Lemma generate_cases fuel randint draw tbl :
  feedback_agent._generate_unique_ticket_id fuel randint draw tbl = OutOfFuel
  ∨ ∃ id, feedback_agent._generate_unique_ticket_id fuel randint draw tbl = Returns id
          ∧ get_ticket tbl id = None ∧ truthy id = true.
Proof.
  revert draw. induction fuel as [|fuel IH]; intros draw; simpl; [by left|].
  destruct (get_ticket tbl (format_06d (randint draw))) eqn:E; [apply IH|].
  right. eexists. split; [done|]. split; [done|].
  unfold format_06d. destruct (randint draw <? 0)%Z; [done|].
  unfold zfill, decimal.
  assert (∀ f n acc, truthy (decimal_go f n acc) = true) as Hgo.
  { induction f as [|f IHf]; intros n acc; simpl; [done|].
    by destruct (n / 10 =? 0)%N. }
  destruct (zeros _); [apply Hgo|done].
Qed.

(** The graph run, by label. *)
Lemma run_support_graph_positive env fuel tbl message cn :
  classifier_agent.classify_message (remote env) message true
  = classifier_agent.POSITIVE_FEEDBACK →
  langgraph_impl.run_support_graph env fuel tbl message cn
  = (Returns (dict_update
                (classified (VStr message) (of_optional cn)
                   (VStr ("cs-" +:+ uuid4 env))
                   (VStr classifier_agent.POSITIVE_FEEDBACK))
                (langgraph_impl.node_update (feedback_agent.thanks_reply cn) VNone
                   "FeedbackAgent" (utcnow env 0))), tbl).
Proof.
  intros Hc. pose proof (run_support_graph_unfold env fuel tbl message cn) as Hrun.
  cbv zeta in Hrun. rewrite Hrun, node_feedback_classified, Hc. clear Hrun.
  change (elem_in classifier_agent.POSITIVE_FEEDBACK [_; _]) with true. cbv iota.
  rewrite handle_feedback_positive.
  by destruct (feedback_result_lookups (feedback_agent.thanks_reply cn) None
                 classifier_agent.POSITIVE_FEEDBACK) as (-> & -> & _).
Qed.

Lemma run_support_graph_negative env fuel tbl message cn :
  classifier_agent.classify_message (remote env) message true
  = classifier_agent.NEGATIVE_FEEDBACK →
  langgraph_impl.run_support_graph env fuel tbl message cn
  = match feedback_agent._generate_unique_ticket_id fuel (randint env) 0 tbl with
    | Returns id =>
        (Returns (dict_update
                    (classified (VStr message) (of_optional cn)
                       (VStr ("cs-" +:+ uuid4 env))
                       (VStr classifier_agent.NEGATIVE_FEEDBACK))
                    (langgraph_impl.node_update (feedback_agent.apology_reply cn id)
                       (VStr id) "FeedbackAgent" (utcnow env 1))),
         tbl ++ [new_row (utcnow env 0) id message cn (Some ("cs-" +:+ uuid4 env))])
    | Raises e => (Raises e, tbl)
    | OutOfFuel => (OutOfFuel, tbl)
    end.
Proof.
  intros Hc. pose proof (run_support_graph_unfold env fuel tbl message cn) as Hrun.
  cbv zeta in Hrun. rewrite Hrun, node_feedback_classified, Hc. clear Hrun.
  change (elem_in classifier_agent.NEGATIVE_FEEDBACK [_; _]) with true. cbv iota.
  rewrite handle_feedback_negative_cases.
  destruct (feedback_agent._generate_unique_ticket_id fuel (randint env) 0 tbl)
    as [id| |]; [|done..].
  by destruct (feedback_result_lookups (feedback_agent.apology_reply cn id) (Some id)
                 classifier_agent.NEGATIVE_FEEDBACK) as (-> & -> & _).
Qed.

Lemma run_support_graph_query env fuel tbl message cn :
  classifier_agent.classify_message (remote env) message true = classifier_agent.QUERY →
  ∃ reply ticket_id found,
    query_agent.handle_query tbl message
    = Returns (query_agent.result reply ticket_id found)
    ∧ langgraph_impl.run_support_graph env fuel tbl message cn
      = (Returns (dict_update
                    (classified (VStr message) (of_optional cn)
                       (VStr ("cs-" +:+ uuid4 env)) (VStr classifier_agent.QUERY))
                    (langgraph_impl.node_update reply (of_optional ticket_id)
                       "QueryAgent" (utcnow env 0))), tbl).
Proof.
  intros Hc. pose proof (run_support_graph_unfold env fuel tbl message cn) as Hrun.
  cbv zeta in Hrun. rewrite Hrun, node_query_classified, Hc. clear Hrun.
  change (elem_in classifier_agent.QUERY [_; _]) with false. cbv iota.
  destruct (handle_query_returns tbl message) as (reply & tid & found & Hq).
  exists reply, tid, found. split; [done|]. rewrite Hq.
  destruct (query_result_lookups reply tid found) as (Hr & Ht & _).
  change (mbind ?f (Returns ?x)) with (f x). cbv beta.
  rewrite Hr. change (mbind ?f (Returns ?x)) with (f x). cbv beta.
  by rewrite Ht.
Qed.

(** The orchestrator run, by label. *)
Lemma process_customer_message_positive env fuel tbl message cn :
  classifier_agent.classify_message (remote env) message true
  = classifier_agent.POSITIVE_FEEDBACK →
  orchestrator.process_customer_message env fuel tbl message cn
  = (Returns (orchestrator.result message classifier_agent.POSITIVE_FEEDBACK
                "FeedbackAgent" (feedback_agent.thanks_reply cn) VNone), tbl).
Proof.
  intros Hc. unfold orchestrator.process_customer_message. cbv zeta. rewrite Hc.
  change (elem_in classifier_agent.POSITIVE_FEEDBACK [_; _]) with true. cbv iota.
  rewrite handle_feedback_positive.
  by destruct (feedback_result_lookups (feedback_agent.thanks_reply cn) None
                 classifier_agent.POSITIVE_FEEDBACK) as (-> & -> & _).
Qed.

Lemma process_customer_message_negative env fuel tbl message cn :
  classifier_agent.classify_message (remote env) message true
  = classifier_agent.NEGATIVE_FEEDBACK →
  orchestrator.process_customer_message env fuel tbl message cn
  = match feedback_agent._generate_unique_ticket_id fuel (randint env) 0 tbl with
    | Returns id =>
        (Returns (orchestrator.result message classifier_agent.NEGATIVE_FEEDBACK
                    "FeedbackAgent" (feedback_agent.apology_reply cn id) (VStr id)),
         tbl ++ [new_row (utcnow env 0) id message cn None])
    | Raises e => (Raises e, tbl)
    | OutOfFuel => (OutOfFuel, tbl)
    end.
Proof.
  intros Hc. unfold orchestrator.process_customer_message. cbv zeta. rewrite Hc.
  change (elem_in classifier_agent.NEGATIVE_FEEDBACK [_; _]) with true. cbv iota.
  rewrite handle_feedback_negative_cases.
  destruct (feedback_agent._generate_unique_ticket_id fuel (randint env) 0 tbl)
    as [id| |]; [|done..].
  by destruct (feedback_result_lookups (feedback_agent.apology_reply cn id) (Some id)
                 classifier_agent.NEGATIVE_FEEDBACK) as (-> & -> & _).
Qed.

Lemma process_customer_message_query env fuel tbl message cn reply ticket_id found :
  classifier_agent.classify_message (remote env) message true = classifier_agent.QUERY →
  query_agent.handle_query tbl message
  = Returns (query_agent.result reply ticket_id found) →
  orchestrator.process_customer_message env fuel tbl message cn
  = (Returns (orchestrator.result message classifier_agent.QUERY "QueryAgent" reply
                (of_optional ticket_id)), tbl).
Proof.
  intros Hc Hq. unfold orchestrator.process_customer_message. cbv zeta. rewrite Hc.
  change (elem_in classifier_agent.QUERY [_; _]) with false.
  change (String.eqb classifier_agent.QUERY classifier_agent.QUERY) with true.
  cbv iota. rewrite Hq.
  destruct (query_result_lookups reply ticket_id found) as (Hr & Ht & _).
  change (mbind ?f (Returns ?x)) with (f x). cbv beta.
  rewrite Hr. change (mbind ?f (Returns ?x)) with (f x). cbv beta.
  by rewrite Ht.
Qed.

Lemma orchestrator_lookups message cls handler reply tid :
  let d := orchestrator.result message cls handler reply tid in
  d !! "reply" = Some (VStr reply)
  ∧ d !! "ticket_id" = Some tid
  ∧ d !! "classification" = Some (VStr cls)
  ∧ d !! "handled_by" = Some (VStr handler).
Proof. by vm_compute. Qed.

Lemma get_ticket_app_same (tbl : table) r1 r2 id :
  ticket_id r1 = ticket_id r2 → selected_columns r1 = selected_columns r2 →
  get_ticket (tbl ++ [r1]) id = get_ticket (tbl ++ [r2]) id.
Proof.
  intros Hid Hsel. unfold get_ticket.
  induction tbl as [|r tbl IH]; simpl.
  - unfold has_id. rewrite Hid. destruct (String.eqb (ticket_id r2) id); [|done].
    by rewrite Hsel.
  - by destruct (has_id id r).
Qed.

(** X20.  Neither entry point lets an exception through, whatever the
    message, the customer name, the store, the remote classifier and the
    draws: every dictionary key the nodes read is there, and the insertion
    cannot collide. *)
Theorem entry_points_never_raise (env : environment) (fuel : nat) (tbl : table)
    (message : string) (cn : option string) :
  ¬ signals_failure (langgraph_impl.run_support_graph env fuel tbl message cn).1
  ∧ ¬ signals_failure (orchestrator.process_customer_message env fuel tbl message cn).1.
Proof.
  destruct (classify_message_label (remote env) message true) as [Hc|[Hc|Hc]].
  - rewrite run_support_graph_positive, process_customer_message_positive by done.
    split; intros [e He]; discriminate.
  - rewrite run_support_graph_negative, process_customer_message_negative by done.
    destruct (generate_cases fuel (randint env) 0 tbl) as [->|(id & -> & _)];
      split; intros [e He]; discriminate.
  - destruct (run_support_graph_query env fuel tbl message cn Hc)
      as (reply & tid & found & Hq & ->).
    rewrite (process_customer_message_query _ _ _ _ _ _ _ _ Hc Hq).
    split; intros [e He]; discriminate.
Qed.

(** X21.  The two entry points agree: on the same request they both
    return, with the same reply, ticket id, classification and handler
    name, and leave stores in which every ticket id reads the same; or
    they both are still looking for a free id, the store untouched.  The
    handler named is FeedbackAgent or QueryAgent. *)
Theorem entry_points_agree (env : environment) (fuel : nat) (tbl : table)
    (message : string) (cn : option string) :
  match langgraph_impl.run_support_graph env fuel tbl message cn,
        orchestrator.process_customer_message env fuel tbl message cn with
  | (Returns d, tbl1), (Returns d', tbl2) =>
      d !! "reply" = d' !! "reply"
      ∧ d !! "ticket_id" = d' !! "ticket_id"
      ∧ d !! "classification" = d' !! "classification"
      ∧ d !! "handled_by" = d' !! "handled_by"
      ∧ (d !! "handled_by" = Some (VStr "FeedbackAgent")
         ∨ d !! "handled_by" = Some (VStr "QueryAgent"))
      ∧ ∀ id, get_ticket tbl1 id = get_ticket tbl2 id
  | (OutOfFuel, tbl1), (OutOfFuel, tbl2) => tbl1 = tbl ∧ tbl2 = tbl
  | _, _ => False
  end.
Proof.
  destruct (classify_message_label (remote env) message true) as [Hc|[Hc|Hc]].
  - rewrite run_support_graph_positive, process_customer_message_positive by done.
    destruct (final_lookups (VStr message) (of_optional cn) (VStr ("cs-" +:+ uuid4 env))
                (VStr classifier_agent.POSITIVE_FEEDBACK)
                (VStr (feedback_agent.thanks_reply cn)) VNone (VStr "FeedbackAgent")
                (VStr (utcnow env 0))) as (H1 & H2 & H3 & H4 & _).
    destruct (orchestrator_lookups message classifier_agent.POSITIVE_FEEDBACK
                "FeedbackAgent" (feedback_agent.thanks_reply cn) VNone)
      as (G1 & G2 & G3 & G4).
    unfold langgraph_impl.node_update.
    rewrite H1, H2, H3, H4, G1, G2, G3, G4. repeat split; auto.
  - rewrite run_support_graph_negative, process_customer_message_negative by done.
    destruct (generate_cases fuel (randint env) 0 tbl) as [->|(id & -> & _)]; [done|].
    destruct (final_lookups (VStr message) (of_optional cn) (VStr ("cs-" +:+ uuid4 env))
                (VStr classifier_agent.NEGATIVE_FEEDBACK)
                (VStr (feedback_agent.apology_reply cn id)) (VStr id)
                (VStr "FeedbackAgent") (VStr (utcnow env 1))) as (H1 & H2 & H3 & H4 & _).
    destruct (orchestrator_lookups message classifier_agent.NEGATIVE_FEEDBACK
                "FeedbackAgent" (feedback_agent.apology_reply cn id) (VStr id))
      as (G1 & G2 & G3 & G4).
    unfold langgraph_impl.node_update.
    rewrite H1, H2, H3, H4, G1, G2, G3, G4. repeat split; auto.
    intros id'. by apply get_ticket_app_same.
  - destruct (run_support_graph_query env fuel tbl message cn Hc)
      as (reply & tid & found & Hq & ->).
    rewrite (process_customer_message_query _ _ _ _ _ _ _ _ Hc Hq).
    destruct (final_lookups (VStr message) (of_optional cn) (VStr ("cs-" +:+ uuid4 env))
                (VStr classifier_agent.QUERY) (VStr reply) (of_optional tid)
                (VStr "QueryAgent") (VStr (utcnow env 0))) as (H1 & H2 & H3 & H4 & _).
    destruct (orchestrator_lookups message classifier_agent.QUERY "QueryAgent" reply
                (of_optional tid)) as (G1 & G2 & G3 & G4).
    unfold langgraph_impl.node_update.
    rewrite H1, H2, H3, H4, G1, G2, G3, G4. repeat split; auto.
Qed.

(** X22.  A request changes the store only when it is classified
    NEGATIVE_FEEDBACK, and then by one appended row at most: through
    either entry point the store is left as it was, or the classification
    is NEGATIVE_FEEDBACK and one row was added after the existing ones. *)
Theorem only_negative_feedback_writes (env : environment) (fuel : nat) (tbl : table)
    (message : string) (cn : option string) :
  ((langgraph_impl.run_support_graph env fuel tbl message cn).2 = tbl
   ∨ (classifier_agent.classify_message (remote env) message true
        = classifier_agent.NEGATIVE_FEEDBACK
      ∧ ∃ r, (langgraph_impl.run_support_graph env fuel tbl message cn).2 = tbl ++ [r]))
  ∧ ((orchestrator.process_customer_message env fuel tbl message cn).2 = tbl
     ∨ (classifier_agent.classify_message (remote env) message true
          = classifier_agent.NEGATIVE_FEEDBACK
        ∧ ∃ r, (orchestrator.process_customer_message env fuel tbl message cn).2
               = tbl ++ [r])).
Proof.
  destruct (classify_message_label (remote env) message true) as [Hc|[Hc|Hc]].
  - rewrite run_support_graph_positive, process_customer_message_positive by done.
    by split; left.
  - rewrite run_support_graph_negative, process_customer_message_negative by done.
    destruct (generate_cases fuel (randint env) 0 tbl) as [->|(id & -> & _)].
    + by split; left.
    + split; right; (split; [done|]); by eexists.
  - destruct (run_support_graph_query env fuel tbl message cn Hc)
      as (reply & tid & found & Hq & ->).
    rewrite (process_customer_message_query _ _ _ _ _ _ _ _ Hc Hq).
    by split; left.
Qed.

(** X23.  The ticket a graph run opens can be traced to the request: its
    row carries the correlation id the result carries, the customer name
    and message of the request and the first clock reading, the result's
    [processed_at] being the second; the row the orchestrator inserts for
    the same request has no correlation id. *)
Theorem graph_ticket_traceable (env : environment) (fuel : nat) (tbl : table)
    (message : string) (cn : option string) (k : nat) :
  classifier_agent.classify_message (remote env) message true
  = classifier_agent.NEGATIVE_FEEDBACK →
  k < fuel →
  get_ticket tbl (format_06d (randint env k)) = None →
  ∃ d r d' r',
    langgraph_impl.run_support_graph env fuel tbl message cn = (Returns d, tbl ++ [r])
    ∧ d !! "ticket_id" = Some (VStr (ticket_id r))
    ∧ d !! "correlation_id" = Some (VStr ("cs-" +:+ uuid4 env))
    ∧ correlation_id r = Some ("cs-" +:+ uuid4 env)
    ∧ customer_name r = cn ∧ db_utils.message r = message
    ∧ created_at r = utcnow env 0
    ∧ d !! "processed_at" = Some (VStr (utcnow env 1))
    ∧ orchestrator.process_customer_message env fuel tbl message cn
      = (Returns d', tbl ++ [r'])
    ∧ ticket_id r' = ticket_id r
    ∧ correlation_id r' = None.
Proof.
  intros Hc Hk Hfree.
  rewrite run_support_graph_negative, process_customer_message_negative by done.
  destruct (generate_terminates fuel (randint env) 0 tbl k Hk Hfree) as [id ->].
  eexists _, _, _, _. split; [reflexivity|].
  destruct (final_lookups (VStr message) (of_optional cn) (VStr ("cs-" +:+ uuid4 env))
              (VStr classifier_agent.NEGATIVE_FEEDBACK)
              (VStr (feedback_agent.apology_reply cn id)) (VStr id)
              (VStr "FeedbackAgent") (VStr (utcnow env 1)))
    as (_ & H2 & _ & _ & H5 & H6).
  unfold langgraph_impl.node_update. rewrite H2, H5, H6. by repeat split.
Qed.

Lemma graph_ticket_traceable_witness :
  ∃ d r d' r',
    langgraph_impl.run_support_graph offline 2 []
      "Money was debited but ATM did not dispense cash." (Some "Ana")
    = (Returns d, [] ++ [r])
    ∧ d !! "ticket_id" = Some (VStr (ticket_id r))
    ∧ d !! "correlation_id" = Some (VStr ("cs-" +:+ uuid4 offline))
    ∧ correlation_id r = Some ("cs-" +:+ uuid4 offline)
    ∧ customer_name r = Some "Ana"
    ∧ db_utils.message r = "Money was debited but ATM did not dispense cash."
    ∧ created_at r = utcnow offline 0
    ∧ d !! "processed_at" = Some (VStr (utcnow offline 1))
    ∧ orchestrator.process_customer_message offline 2 []
        "Money was debited but ATM did not dispense cash." (Some "Ana")
      = (Returns d', [] ++ [r'])
    ∧ ticket_id r' = ticket_id r
    ∧ correlation_id r' = None.
Proof.
  apply (graph_ticket_traceable offline 2 [] _ _ 0).
  - reflexivity.
  - lia.
  - reflexivity.
Defined.

Lemma dict_truthy_selected_columns r :
  test_harness.dict_truthy (selected_columns r) = true.
Proof.
  unfold test_harness.dict_truthy. apply negb_true_iff, bool_decide_eq_false.
  intros H. assert (selected_columns r !! "status" = None) as Hs
    by (by rewrite H, lookup_empty).
  discriminate Hs.
Qed.

(** X24.  A turn of the test harness on a message classified
    NEGATIVE_FEEDBACK creates the ticket and then fails: the verification
    line reads [ticket['correlation_id']] from the record [get_ticket]
    returned, which has no such field, so a [KeyError] leaves the loop. *)
Theorem harness_fails_on_created_ticket (env : environment) (fuel : nat) (tbl : table)
    (message : string) (k : nat) :
  classifier_agent.classify_message (remote env) message true
  = classifier_agent.NEGATIVE_FEEDBACK →
  k < fuel →
  get_ticket tbl (format_06d (randint env k)) = None →
  ∃ r, test_harness.run_case env fuel tbl message
       = (Raises (KeyError "correlation_id"), tbl ++ [r])
       ∧ db_utils.message r = message.
Proof.
  intros Hc Hk Hfree. unfold test_harness.run_case.
  rewrite run_support_graph_negative by done.
  destruct (generate_cases fuel (randint env) 0 tbl) as [Hout|(id & Hgen & Hnone & Hid)].
  - destruct (generate_terminates fuel (randint env) 0 tbl k Hk Hfree) as [id Hgen].
    congruence.
  - rewrite Hgen.
    destruct (final_lookups (VStr message) (of_optional (Some "TestUser"))
                (VStr ("cs-" +:+ uuid4 env))
                (VStr classifier_agent.NEGATIVE_FEEDBACK)
                (VStr (feedback_agent.apology_reply (Some "TestUser") id)) (VStr id)
                (VStr "FeedbackAgent") (VStr (utcnow env 1))) as (_ & H2 & _).
    unfold get_optional, langgraph_impl.node_update. rewrite H2, Hid.
    unfold get_ticket. rewrite find_app_fresh; [|done..].
    rewrite dict_truthy_selected_columns.
    eexists. split; [reflexivity|done].
Qed.

Lemma harness_fails_on_created_ticket_witness :
  ∃ r, test_harness.run_case offline 2 []
         "Money was debited but ATM did not dispense cash."
       = (Raises (KeyError "correlation_id"), [] ++ [r])
       ∧ db_utils.message r = "Money was debited but ATM did not dispense cash.".
Proof.
  apply (harness_fails_on_created_ticket offline 2 [] _ 0).
  - reflexivity.
  - lia.
  - reflexivity.
Defined.

End PipelineMore.
